(** * The file-based instance registry of ida-pro-mcp

    A shallow embedding of [src/ida_pro_mcp/instance_registry.py] and the
    properties of its registration, lookup, reaping and port allocation.

    Modelling conventions.
    - The registry directory [REGISTRY_DIR] is a finite map from file names to
      directory entries, on a POSIX file system that tells upper case from
      lower case.  A missing directory behaves like an empty one
      ([_ensure_registry_dir] creates it, [exists] and [unlink(missing_ok)]
      treat it like a missing file), so it is not distinguished.
    - An instance id stands for the file name [id + ".json"] inside that
      directory.  This is what [REGISTRY_DIR / f"{id}.json"] denotes for the
      ids picked out by [valid_id]: no path separator, no NUL character, and
      a name of at most 255 bytes.  For other ids the operating system
      refuses the path or [pathlib] rewrites it; this is not modelled, and
      the statements below are about ids of the first kind.
    - A regular file is given by what [json.load] makes of it: it raises
      [JSONDecodeError] (text that is not JSON), it raises another exception
      (bytes that are not UTF-8, say), it returns a value that is not a
      dictionary, or it returns a dictionary.  [json.dump] followed by
      [json.load] is the identity on the members of a dictionary.  Following
      the annotations of [InstanceInfo] and of [from_dict], a dictionary is
      given by its seven known keys, each present or not, with values of the
      annotated type; dictionaries with members of another type are outside
      the model.
    - Integers are those that [json] reads and writes in decimal (the
      interpreter converts integers of up to 4300 digits).
    - Python exceptions are explicit: every operation returns an [outcome]
      together with the directory it leaves behind.
    - [time.time()], [os.getpid()], [os.kill(pid, 0)], [socket.bind],
      [str.lower] and the order in which the directory is scanned are read
      from an environment [Env]; one call of a registry function sees one
      environment.
    - Timestamps and clock readings are finite floating-point numbers
      (binary64), given by their exact rational value; the subtraction in
      [is_stale] rounds to the nearest binary64 number, ties to even. *)

From Stdlib Require Import QArith Lqa Qround Qpower Ascii String.
From stdpp Require Import base gmap strings list pretty.

(** ** Exceptions and the state-and-exception monad *)

Inductive exn :=
| JSONDecodeError
| KeyError (key : string)
| OSError
| RuntimeError (msg : string)
| UnicodeDecodeError
| TypeError
| OverflowError
| ValueError
| RecursionError.

Inductive outcome (A : Type) :=
| Return (a : A)
| Raise (e : exn).
Arguments Return {A} a.
Arguments Raise {A} e.

(** ** Data model *)

(** [class InstanceInfo] *)
Record InstanceInfo := mkInstanceInfo {
  instance_id : string;
  host : string;
  port : Z;
  binary_name : string;
  binary_path : string;
  pid : Z;
  timestamp : Q;
}.

(** A JSON object restricted to the keys the registry knows; [None] is an
    absent key. *)
Record dict := mkDict {
  d_instance_id : option string;
  d_host : option string;
  d_port : option Z;
  d_binary_name : option string;
  d_binary_path : option string;
  d_pid : option Z;
  d_timestamp : option Q;
}.

(** What a regular file holds, by what [json.load] makes of it.
    [Unreadable e] is a file on which reading or parsing raises [e], an
    exception other than [JSONDecodeError]: [UnicodeDecodeError] for bytes
    that are not UTF-8, [ValueError] for an integer literal with more digits
    than the interpreter converts, [RecursionError] for text that is nested
    too deeply. *)
Inductive content :=
| Unreadable (e : exn)
| Malformed            (* text that is not JSON: JSONDecodeError *)
| NotObject            (* JSON text of a list, string, number, true, false, null *)
| Doc (d : dict).      (* JSON text of an object *)

(** What [json.load] returns. *)
Inductive json :=
| JObject (d : dict)
| JOther.              (* a list, a string, a number, a boolean or None *)

(** An entry of the registry directory. *)
Inductive entry :=
| File (c : content)
| Directory.           (* a sub-directory: open and unlink raise OSError *)

Abbreviation store := (gmap string entry).

(** The operating system and the Python runtime as seen by one call. *)
Record Env := mkEnv {
  time_time : Q;                    (* time.time() *)
  os_getpid : Z;                    (* os.getpid() *)
  os_kill0 : Z → bool;              (* os.kill(pid, 0) returns (it raises
                                       OSError otherwise), pid a C int *)
  socket_bind : string → Z → option exn;
                                    (* what creating, configuring and
                                       binding the socket raises *)
  str_lower : string → string;      (* str.lower() *)
  scandir : store → list string;    (* directory iteration order *)
}.

(** The directory scan lists every entry exactly once, in some order. *)
Definition scandir_ok (E : Env) : Prop :=
  ∀ st : store, NoDup (scandir E st) ∧ ∀ n, n ∈ scandir E st ↔ is_Some (st !! n).

Definition py (A : Type) : Type := store → outcome A * store.

Definition ret {A} (a : A) : py A := λ st, (Return a, st).

Definition raise {A} (e : exn) : py A := λ st, (Raise e, st).

Definition bind {A B} (m : py A) (k : A → py B) : py B :=
  λ st, match m st with
        | (Return a, st') => k a st'
        | (Raise e, st') => (Raise e, st')
        end.

#[global] Instance py_ret : MRet py := @ret.
#[global] Instance py_bind : MBind py := λ A B k m, bind m k.

(** [try: body  except <caught>: handler] *)
Definition try_except {A} (body : py A) (caught : exn → bool) (handler : py A)
  : py A :=
  λ st, match body st with
        | (Raise e, st') => if caught e then handler st' else (Raise e, st')
        | r => r
        end.

(** [for x in xs: acc = body(acc, x)] *)
Fixpoint for_each {A X} (xs : list X) (body : A → X → py A) (acc : A) : py A :=
  match xs with
  | [] => ret acc
  | x :: xs' => acc' ← body acc x; for_each xs' body acc'
  end.

(** The exception tuples of the [except] clauses. *)
Definition is_OSError (e : exn) : bool :=
  match e with OSError => true | _ => false end.

(** [(json.JSONDecodeError, KeyError, OSError)] *)
Definition is_registry_error (e : exn) : bool :=
  match e with
  | JSONDecodeError | KeyError _ | OSError => true
  | _ => false
  end.

(** ** Constants *)

Definition PORT_RANGE_START : Z := 13337.
Definition PORT_RANGE_END : Z := 13437.
Definition STALE_TIMEOUT : Q := 60.
Definition HEARTBEAT_INTERVAL : Q := 30.

(** ** Strings *)

(** [str.lower] on ASCII text: what [str_lower] is on a machine that only
    sees ASCII names. *)
Definition ascii_lower (c : ascii) : ascii :=
  let n := N_of_ascii c in
  if ((65 <=? n) && (n <=? 90))%N then ascii_of_N (n + 32) else c.

Fixpoint lower (s : string) : string :=
  match s with
  | EmptyString => EmptyString
  | String c s' => String (ascii_lower c) (lower s')
  end.

(** [s.endswith(suffix)] *)
Fixpoint ends_with (suffix s : string) : bool :=
  String.eqb s suffix ||
  match s with
  | EmptyString => false
  | String _ s' => ends_with suffix s'
  end.

(** ** Primitive file operations *)

(** [filepath.exists()], for a path that the file system accepts (see
    [valid_id]) *)
Definition path_exists (p : string) : py bool :=
  λ st, (Return (bool_decide (is_Some (st !! p))), st).

(** [open(filepath, "r", encoding="utf-8")]; the content is what reading and
    parsing will find *)
Definition open_read (p : string) : py content :=
  λ st, match st !! p with
        | Some (File c) => (Return c, st)
        | Some Directory => (Raise OSError, st)   (* IsADirectoryError *)
        | None => (Raise OSError, st)             (* FileNotFoundError *)
        end.

(** [json.load] *)
Definition json_load (c : content) : py json :=
  match c with
  | Unreadable e => raise e
  | Malformed => raise JSONDecodeError
  | NotObject => ret JOther
  | Doc d => ret (JObject d)
  end.

(** [with open(filepath, "r", encoding="utf-8") as f: data = json.load(f)] *)
Definition read_json (p : string) : py json :=
  c ← open_read p; json_load c.

(** [with open(filepath, "w", encoding="utf-8") as f: json.dump(d, f, indent=2)],
    for a path that the file system accepts *)
Definition write_json (p : string) (d : dict) : py unit :=
  λ st, match st !! p with
        | Some Directory => (Raise OSError, st)
        | _ => (Return tt, <[p := File (Doc d)]> st)
        end.

(** [filepath.unlink(missing_ok=True)], for a path that the file system
    accepts *)
Definition unlink_missing_ok (p : string) : py unit :=
  λ st, match st !! p with
        | Some Directory => (Raise OSError, st)
        | _ => (Return tt, delete p st)
        end.

(** The names that [REGISTRY_DIR.glob("*.json")] yields, in scan order. *)
Definition glob_names (E : Env) (st : store) : list string :=
  filter (λ n, Is_true (ends_with ".json" n)) (scandir E st).

(** [REGISTRY_DIR.glob("*.json")]: the scan is taken when the loop starts. *)
Definition glob_json (E : Env) : py (list string) :=
  λ st, (Return (glob_names E st), st).

(** [data[key]] *)
Definition getitem {A} (field : option A) (key : string) : py A :=
  match field with
  | Some v => ret v
  | None => raise (KeyError key)
  end.

(** [data["timestamp"] = t] on a dictionary *)
Definition set_timestamp (data : dict) (t : Q) : dict :=
  {| d_instance_id := d_instance_id data;
     d_host := d_host data;
     d_port := d_port data;
     d_binary_name := d_binary_name data;
     d_binary_path := d_binary_path data;
     d_pid := d_pid data;
     d_timestamp := Some t |}.

(** [data["timestamp"] = t] on what [json.load] returned: a value that is
    not a dictionary takes no item assignment by a string key. *)
Definition setitem_timestamp (data : json) (t : Q) : py dict :=
  match data with
  | JObject d => ret (set_timestamp d t)
  | JOther => raise TypeError
  end.

(** ** Floating-point subtraction

    [x - y] on two floats is the binary64 number nearest to the exact
    difference, ties going to the even significand.  The exponent range is
    not bounded above: a difference beyond the largest float is infinite in
    Python and just large here, which the comparison in [is_stale] does not
    tell apart. *)

Definition pow2 (e : Z) : Q := (2 ^ e)%Q.

(** The integer [l] with [2^l <= q < 2^(l+1)], for [q > 0]. *)
Definition ilog2 (q : Q) : Z :=
  if Qle_bool 1 q then Z.log2 (Qfloor q)
  else (- Z.log2_up (Qceiling (/ q)))%Z.

Definition round_half_even (q : Q) : Z :=
  let f := Qfloor q in
  match ((q - inject_Z f) ?= (1 # 2))%Q with
  | Lt => f
  | Gt => (f + 1)%Z
  | Eq => if Z.even f then f else (f + 1)%Z
  end.

(** The nearest number with a 53-bit significand and exponent at least
    -1074, for [q > 0]. *)
Definition round_double_pos (q : Q) : Q :=
  let e := Z.max (-1074) (ilog2 q - 52) in
  (inject_Z (round_half_even (q / pow2 e)) * pow2 e)%Q.

Definition round_double (q : Q) : Q :=
  match (q ?= 0)%Q with
  | Eq => 0%Q
  | Gt => round_double_pos q
  | Lt => (- round_double_pos (- q))%Q
  end.

Definition float_sub (x y : Q) : Q := round_double (x - y)%Q.

(** ** [InstanceInfo] methods *)

Definition to_dict (self : InstanceInfo) : dict :=
  {| d_instance_id := Some (instance_id self);
     d_host := Some (host self);
     d_port := Some (port self);
     d_binary_name := Some (binary_name self);
     d_binary_path := Some (binary_path self);
     d_pid := Some (pid self);
     d_timestamp := Some (timestamp self) |}.

Definition from_dict (data : dict) : py InstanceInfo :=
  i ← getitem (d_instance_id data) "instance_id";
  h ← getitem (d_host data) "host";
  p ← getitem (d_port data) "port";
  bn ← getitem (d_binary_name data) "binary_name";
  let bp := default "" (d_binary_path data) in
  pi ← getitem (d_pid data) "pid";
  t ← getitem (d_timestamp data) "timestamp";
  ret {| instance_id := i; host := h; port := p; binary_name := bn;
         binary_path := bp; pid := pi; timestamp := t |}.

(** [InstanceInfo.from_dict(data)] on what [json.load] returned: indexing a
    value that is not a dictionary by a string raises [TypeError]. *)
Definition from_json (data : json) : py InstanceInfo :=
  match data with
  | JObject d => from_dict d
  | JOther => raise TypeError
  end.

(** [x > y] on rationals *)
Definition Qgtb (x y : Q) : bool := negb (Qle_bool x y).

Definition is_stale (E : Env) (self : InstanceInfo) : bool :=
  Qgtb (float_sub (time_time E) (timestamp self)) STALE_TIMEOUT.

(** A process id that [os.kill] can pass to the system call: one that fits
    the C type [int]. *)
Definition fits_c_int (z : Z) : bool :=
  ((- 2 ^ 31 <=? z) && (z <? 2 ^ 31))%Z.

(** [os.kill(pid, 0)] *)
Definition os_kill (E : Env) (pid : Z) : py unit :=
  if fits_c_int pid then
    if os_kill0 E pid then ret tt else raise OSError
  else raise OverflowError.

Definition is_alive (E : Env) (self : InstanceInfo) : py bool :=
  try_except
    (os_kill E (pid self);; ret true)
    is_OSError
    (ret false).

(** [a and b], where [b] is only evaluated when [a] is true. *)
Definition and_then (a : bool) (b : py bool) : py bool :=
  if a then b else ret false.

(** [not b] *)
Definition py_not (b : py bool) : py bool := x ← b; ret (negb x).

(** ** Registry functions *)

Definition _ensure_registry_dir : py unit := ret tt.

(** [REGISTRY_DIR / f"{instance_id}.json"], as a name inside the directory:
    the two agree for the ids of [valid_id] below. *)
Definition _instance_file (instance_id : string) : string :=
  instance_id +:+ ".json".

Definition no_ports_message : string :=
  "No available ports in range " +:+ pretty PORT_RANGE_START +:+ "-"
    +:+ pretty PORT_RANGE_END.

Definition register_instance (E : Env)
    (instance_id host : string) (port : Z) (binary_name binary_path : string)
  : py InstanceInfo :=
  _ensure_registry_dir;;
  let info := {| instance_id := instance_id; host := host; port := port;
                 binary_name := binary_name; binary_path := binary_path;
                 pid := os_getpid E; timestamp := time_time E |} in
  let filepath := _instance_file instance_id in
  write_json filepath (to_dict info);;
  ret info.

Definition unregister_instance (instance_id : string) : py bool :=
  let filepath := _instance_file instance_id in
  try_except
    (unlink_missing_ok filepath;; ret true)
    is_OSError
    (ret false).

Definition refresh_instance (E : Env) (instance_id : string) : py bool :=
  let filepath := _instance_file instance_id in
  ex ← path_exists filepath;
  if negb ex then ret false
  else
    try_except
      (data ← read_json filepath;
       data ← setitem_timestamp data (time_time E);
       write_json filepath data;;
       ret true)
      is_registry_error
      (ret false).

(** The body of the loop of [list_instances]. *)
Definition list_instances_body (E : Env) (include_stale : bool)
    (instances : list InstanceInfo) (filepath : string)
  : py (list InstanceInfo) :=
  try_except
    (data ← read_json filepath;
     info ← from_json data;
     skip ← and_then (negb include_stale && is_stale E info)
                     (py_not (is_alive E info));
     if (skip : bool) then
       unlink_missing_ok filepath;;
       ret instances
     else
       ret (instances ++ [info]))
    is_registry_error
    (try_except (unlink_missing_ok filepath) is_OSError (ret tt);;
     ret instances).

Definition list_instances (E : Env) (include_stale : bool)
  : py (list InstanceInfo) :=
  _ensure_registry_dir;;
  paths ← glob_json E;
  for_each paths (list_instances_body E include_stale) [].

Definition find_instance_by_binary (E : Env) (binary_name0 : string)
  : py (option InstanceInfo) :=
  let binary_name_lower := str_lower E binary_name0 in
  instances ← list_instances E false;
  ret (find (λ info, String.eqb (str_lower E (binary_name info))
                       binary_name_lower)
            instances).

Definition find_instance_by_id (instance_id : string)
  : py (option InstanceInfo) :=
  let filepath := _instance_file instance_id in
  ex ← path_exists filepath;
  if negb ex then ret None
  else
    try_except
      (data ← read_json filepath;
       info ← from_json data;
       ret (Some info))
      is_registry_error
      (ret None).

(** The body of the loop of [cleanup_stale_instances]. *)
Definition cleanup_body (E : Env) (removed : Z) (filepath : string) : py Z :=
  try_except
    (data ← read_json filepath;
     info ← from_json data;
     reap ← and_then (is_stale E info) (py_not (is_alive E info));
     if (reap : bool) then
       unlink_missing_ok filepath;;
       ret (removed + 1)%Z
     else
       ret removed)
    is_registry_error
    (try_except
       (unlink_missing_ok filepath;; ret (removed + 1)%Z)
       is_OSError
       (ret removed)).

Definition cleanup_stale_instances (E : Env) : py Z :=
  let removed := 0%Z in
  _ensure_registry_dir;;
  paths ← glob_json E;
  for_each paths (cleanup_body E) removed.

(** [with socket.socket(...) as s: s.setsockopt(...); s.bind((host, port))] *)
Definition try_bind (E : Env) (host : string) (port : Z) : py unit :=
  match socket_bind E host port with
  | None => ret tt
  | Some e => raise e
  end.

(** The loop of [find_available_port] over the remaining candidates, with
    the [raise] that follows it. *)
Fixpoint scan_ports (E : Env) (host : string) (registered_ports : gset Z)
    (candidates : list Z) : py Z :=
  match candidates with
  | [] => raise (RuntimeError no_ports_message)
  | port :: rest =>
      if bool_decide (port ∈ registered_ports) then
        scan_ports E host registered_ports rest
      else
        found ← try_except
                  (try_bind E host port;; ret (Some port))
                  is_OSError
                  (ret None);
        match found with
        | Some port => ret port
        | None => scan_ports E host registered_ports rest
        end
  end.

Definition find_available_port (E : Env) (host : string) : py Z :=
  instances ← list_instances E false;
  let registered_ports : gset Z := list_to_set (port <$> instances) in
  scan_ports E host registered_ports
    (seqZ PORT_RANGE_START (PORT_RANGE_END - PORT_RANGE_START)).

(** ** The record a directory entry holds, when [from_dict] accepts it *)

Definition record_of (e : entry) : option InstanceInfo :=
  match e with
  | File (Doc d) =>
      match (from_dict d ∅).1 with
      | Return info => Some info
      | Raise _ => None
      end
  | _ => None
  end.

(** A regular file that the sweeps treat as an invalid registration: text
    that is not JSON, an object that lacks a required key, or a file on which
    [json.load] raises another exception that the sweeps catch. *)
Definition corrupt (e : entry) : bool :=
  match e with
  | File (Unreadable x) => is_registry_error x
  | File Malformed => true
  | File (Doc d) =>
      match record_of (File (Doc d)) with Some _ => false | None => true end
  | _ => false
  end.

(** The reaping condition: stale and not alive ([os.kill(pid, 0)] fails). *)
Definition reapable (E : Env) (info : InstanceInfo) : bool :=
  is_stale E info && negb (os_kill0 E (pid info)).

(** The exception, if any, that one round of the loop of a sweep lets
    through on an entry: the [except] clauses name [JSONDecodeError],
    [KeyError] and [OSError], and nothing else. *)
Definition escapes (E : Env) (include_stale : bool) (e : entry) : option exn :=
  match e with
  | File (Unreadable x) => if is_registry_error x then None else Some x
  | File NotObject => Some TypeError
  | File (Doc d) =>
      match record_of (File (Doc d)) with
      | Some info =>
          if negb include_stale && is_stale E info
             && negb (fits_c_int (pid info))
          then Some OverflowError else None
      | None => None
      end
  | _ => None
  end.

(** A loop body that acts on one entry per round: on the entry [e] at the
    path it is given it either lets an exception through ([esc e]) or updates
    its accumulator and possibly unlinks the path ([unl e]). *)
Definition acts_entrywise {A} (body : A → string → py A)
    (esc : entry → option exn) (unl : entry → bool)
    (upd : A → option entry → A) : Prop :=
  ∀ acc n st,
    body acc n st =
      match st !! n with
      | Some e =>
          match esc e with
          | Some x => (Raise x, st)
          | None => (Return (upd acc (Some e)),
                     if unl e then delete n st else st)
          end
      | None => (Return (upd acc None), st)
      end.

(** A well-formed directory: no entry makes a sweep raise, at any time.
    On every [*.json] regular file [json.load] either returns a dictionary
    (with members of the annotated types, as everywhere in this model) or
    raises one of the exceptions that the sweeps catch, [JSONDecodeError]
    above all; and the [pid] of every record fits a C [int]. *)
Definition sweepable_entry (e : entry) : bool :=
  match e with
  | File (Unreadable x) => is_registry_error x
  | File NotObject => false
  | File (Doc d) =>
      match record_of (File (Doc d)) with
      | Some info => fits_c_int (pid info)
      | None => true
      end
  | _ => true
  end.

Definition well_formed (st : store) : Prop :=
  ∀ n e, ends_with ".json" n = true → st !! n = Some e →
         sweepable_entry e = true.

(** An id whose file name [REGISTRY_DIR / f"{id}.json"] is the single path
    component [id + ".json"] and is accepted by the file system. *)
Definition valid_id (i : string) : bool :=
  forallb (λ c, negb (Ascii.eqb c "/") && negb (Ascii.eqb c "000"))
          (list_ascii_of_string i)
  && (String.length (_instance_file i) <=? 255)%nat.

(** What one round of the loop of [list_instances] appends for an entry. *)
Definition listed (E : Env) (include_stale : bool) (e : entry)
  : option InstanceInfo :=
  match record_of e with
  | Some info => if negb include_stale && reapable E info then None else Some info
  | None => None
  end.

(** Whether one round of the loop of [list_instances] unlinks an entry; the
    loop of [cleanup_stale_instances] behaves like [include_stale = False]. *)
Definition unlinked (E : Env) (include_stale : bool) (e : entry) : bool :=
  match record_of e with
  | Some info => negb include_stale && reapable E info
  | None => corrupt e
  end.

(** Whether one round of the loop of [cleanup_stale_instances] adds one to
    [removed]; [None] is a path that has no entry when it is visited. *)
Definition counted (E : Env) (o : option entry) : bool :=
  match o with
  | Some e => unlinked E false e
  | None => true
  end.

(** The directory after every [*.json] entry that is to be unlinked is gone. *)
Definition reaped (E : Env) (include_stale : bool) (st : store) : store :=
  filter (λ ne, ¬ (Is_true (ends_with ".json" ne.1) ∧
                   Is_true (unlinked E include_stale ne.2))) st.



(** No record in the directory carries a timestamp later than [t]. *)
Definition stamped_by (t : Q) (st : store) : Prop :=
  ∀ n d stamp,
    st !! n = Some (File (Doc d)) → d_timestamp d = Some stamp → (stamp <= t)%Q.

(** ** Concrete environments *)

(** A directory scan in the order in which the map enumerates its keys. *)
Definition scandir_keys (st : store) : list string := (map_to_list st).*1.

(** A machine whose clock reads [now], where the calling process has id [me]
    and is the only live process, where every port can be bound and where
    all names are ASCII. *)
Definition machine (now : Q) (me : Z) : Env :=
  {| time_time := now;
     os_getpid := me;
     os_kill0 := λ p, bool_decide (p = me);
     socket_bind := λ _ _, None;
     str_lower := lower;
     scandir := scandir_keys |}.

(** ** Sample directory contents *)

(** An instance "a" on port 13337, owned by process [owner] and last
    refreshed at [stamp], and its dictionary. *)
Definition sample_info (stamp : Q) (owner : Z) : InstanceInfo :=
  {| instance_id := "a";
     host := "127.0.0.1";
     port := 13337%Z;
     binary_name := "x.exe";
     binary_path := "/bin/x.exe";
     pid := owner;
     timestamp := stamp |}.

Definition sample_dict (stamp : Q) (owner : Z) : dict :=
  to_dict (sample_info stamp owner).

(** A directory that holds only [a.json]. *)
Definition sample_store (stamp : Q) (owner : Z) : store :=
  {[ "a.json" := File (Doc (sample_dict stamp owner)) ]}.

(** The floats that Python writes [0.1] and [60.1]. *)
Definition float_0_1 : Q := 3602879701896397 # 36028797018963968.

Definition float_60_1 : Q := 8458323050155213 # 140737488355328.

(** A directory that holds only a file that is not JSON. *)
Definition corrupt_store : store := {[ "x.json" := File Malformed ]}.

(** Directories that hold only a file that is not UTF-8 text, and only a
    file with the JSON text of a list. *)
Definition undecodable_store : store :=
  {[ "x.json" := File (Unreadable UnicodeDecodeError) ]}.

Definition list_store : store := {[ "a.json" := File NotObject ]}.

(** A directory in which a sub-directory sits at the path of the file of the
    instance "a". *)
Definition directory_store : store := {[ "a.json" := Directory ]}.

(** A directory with one record, last refreshed at 900 by a process whose id
    is 2^31, one more than a C [int] holds. *)
Definition overflow_store : store := sample_store 900 2147483648.

(** The directory of a fresh instance "a" analysing "MyBinary.EXE" for
    process 42, next to a file with the JSON text of a list. *)
Definition mixed_store : store :=
  <[ "b.json" := File NotObject ]>
    (register_instance (machine 1000 42) "a" "127.0.0.1" 13337 "MyBinary.EXE"
       "" ∅).2.

(** The directory after registering "a" (port 13337, "x.exe") and "b" (port
    13338, "Y.EXE") from process 42 at time 1000, starting from nothing. *)
Definition two_instances : store :=
  (register_instance (machine 1000 42) "b" "127.0.0.1" 13338 "Y.EXE" ""
     (register_instance (machine 1000 42) "a" "127.0.0.1" 13337 "x.exe" ""
        ∅).2).2.

(** The same directory once the file of "a" carries a timestamp more than
    [STALE_TIMEOUT] in the past and the id of a process that does not exist. *)
Definition two_instances_aged : store :=
  <[ "a.json" := File (Doc (to_dict
       {| instance_id := "a"; host := "127.0.0.1"; port := 13337%Z;
          binary_name := "x.exe"; binary_path := ""; pid := 999999999%Z;
          timestamp := 900 |})) ]> two_instances.

(** ** Further sample data *)

(** The dictionary of the sample instance without its ["pid"] member, and
    without its ["binary_path"] member. *)
Definition sample_dict_without_pid : dict :=
  {| d_instance_id := Some "a"; d_host := Some "127.0.0.1";
     d_port := Some 13337%Z; d_binary_name := Some "x.exe";
     d_binary_path := Some "/bin/x.exe"; d_pid := None;
     d_timestamp := Some 900%Q |}.

Definition sample_dict_without_path : dict :=
  {| d_instance_id := Some "a"; d_host := Some "127.0.0.1";
     d_port := Some 13337%Z; d_binary_name := Some "x.exe";
     d_binary_path := None; d_pid := Some 7%Z;
     d_timestamp := Some 900%Q |}.

(** ** A sequence of registrations *)

(** The arguments of one call of [register_instance]. *)
Record registration := mkRegistration {
  r_instance_id : string;
  r_host : string;
  r_port : Z;
  r_binary_name : string;
  r_binary_path : string;
}.

(** [for r in regs: register_instance(r.instance_id, r.host, r.port,
    r.binary_name, r.binary_path)] *)
Definition register_each (E : Env) (regs : list registration) : py unit :=
  for_each regs
    (λ _ r, register_instance E (r_instance_id r) (r_host r) (r_port r)
              (r_binary_name r) (r_binary_path r);; ret tt)
    tt.

(** The record that [register_instance] builds from its arguments. *)
Definition registered (E : Env) (r : registration) : InstanceInfo :=
  {| instance_id := r_instance_id r; host := r_host r; port := r_port r;
     binary_name := r_binary_name r; binary_path := r_binary_path r;
     pid := os_getpid E; timestamp := time_time E |}.

(** Five instances on consecutive ports. *)
Definition five_registrations : list registration :=
  [ mkRegistration "multi0" "127.0.0.1" 13350 "binary0.exe" "";
    mkRegistration "multi1" "127.0.0.1" 13351 "binary1.exe" "";
    mkRegistration "multi2" "127.0.0.1" 13352 "binary2.exe" "";
    mkRegistration "multi3" "127.0.0.1" 13353 "binary3.exe" "";
    mkRegistration "multi4" "127.0.0.1" 13354 "binary4.exe" "" ].

(** ** [class HeartbeatThread]

    The object is its three fields.  The thread that [start] launches runs
    [_run]; what that thread sees of the rest of the program is given to
    [_run] as a list of turns of its loop, each with whether [stop()] has
    been called by the time the loop condition is tested and with the machine
    at the time of the refresh.  A list of turns is a finite prefix of a run
    that may go on for ever. *)
Module HeartbeatThread.

Record t := mk {
  instance_id : string;   (* self.instance_id *)
  _stop_event : bool;     (* self._stop_event.is_set() *)
  _thread : bool;         (* self._thread is not None *)
}.

(** [__init__] *)
Definition init (instance_id : string) : t :=
  {| instance_id := instance_id; _stop_event := false; _thread := false |}.

(** [start]: the object afterwards, and whether a thread was launched. *)
Definition start (self : t) : t * bool :=
  if _thread self then (self, false)
  else ({| instance_id := instance_id self;
           _stop_event := _stop_event self;
           _thread := true |}, true).

(** [stop] *)
Definition stop (self : t) : t :=
  {| instance_id := instance_id self; _stop_event := true; _thread := false |}.

(** [_run] *)
Fixpoint _run (self : t) (turns : list (bool * Env)) : py unit :=
  match turns with
  | [] => ret tt
  | (stop_called, E) :: turns' =>
      if _stop_event self || stop_called then ret tt
      else refresh_instance E (instance_id self);; _run self turns'
  end.

(** The machines of the turns in which [_run] refreshes: those before the
    first turn that finds the stop event set. *)
Fixpoint beats (self : t) (turns : list (bool * Env)) : list Env :=
  match turns with
  | [] => []
  | (stop_called, E) :: turns' =>
      if _stop_event self || stop_called then [] else E :: beats self turns'
  end.

End HeartbeatThread.

(** ** [unload_package] of the plugin loader *)

(** [del d[key]] *)
Definition del_item {M} (key : string) (d : gmap string M)
  : outcome (gmap string M) :=
  match d !! key with
  | Some _ => Return (delete key d)
  | None => Raise (KeyError key)
  end.

(** [mod_name == package_name or mod_name.startswith(package_name + ".")] *)
Definition belongs_to (package_name mod_name : string) : bool :=
  String.eqb mod_name package_name
  || String.prefix (package_name +:+ ".") mod_name.

(** [unload_package]; [names] is [sys.modules] iterated, in its order. *)
Definition unload_package {M} (package_name : string) (names : list string)
    (sys_modules : gmap string M) : outcome (gmap string M) :=
  let to_remove := filter (λ mod_name, Is_true (belongs_to package_name mod_name))
                     names in
  foldl (λ acc mod_name,
           match acc with
           | Return modules => del_item mod_name modules
           | Raise e => Raise e
           end)
        (Return sys_modules) to_remove.

(** A few loaded modules. *)
Definition sample_modules : gmap string nat :=
  {[ "ida_mcp" := 1%nat; "ida_mcp.rpc" := 2%nat; "ida_mcp.api.core" := 3%nat;
     "ida_mcp_extra" := 4%nat; "idaapi" := 5%nat ]}.

(** ** The plugin's registration ([class MCP] of the plugin loader)

    What the plugin needs from IDA and from the import system is read from
    [Ida]: the result of [ida_nalt.get_root_filename()] and of
    [ida_nalt.get_input_file_path()] ([None] when the import or the call
    raises, [Some None] when the call returns [None]), and whether
    [instance_registry] can be imported by one of the two paths that are
    tried.  Printing is left out. *)
Record Ida := mkIda {
  get_root_filename : option (option string);
  get_input_file_path : option (option string);
  registry_importable : bool;
}.

(** [value or fallback] on an optional string *)
Definition or_else (value : option string) (fallback : string) : string :=
  match value with
  | Some s => if String.eqb s "" then fallback else s
  | None => fallback
  end.

Definition _get_binary_name (I : Ida) : string :=
  match get_root_filename I with
  | Some name => or_else name "unknown"
  | None => "unknown"                      (* except Exception *)
  end.

Definition _get_binary_path (I : Ida) : string :=
  match get_input_file_path I with
  | Some path => or_else path ""
  | None => ""                             (* except Exception *)
  end.

Module MCP.

Record t := mk {
  mcp : bool;                              (* self.mcp is set *)
  port : Z;                                (* self.port *)
  instance_id : string;                    (* self.instance_id *)
  heartbeat : option HeartbeatThread.t;    (* self.heartbeat *)
}.

Definition HOST : string := "127.0.0.1".

Definition _register_instance (E : Env) (I : Ida) (self : t) : py t :=
  if negb (registry_importable I) then ret self
  else
    let binary_name := _get_binary_name I in
    let binary_path := _get_binary_path I in
    register_instance E (instance_id self) HOST (port self) binary_name
      binary_path;;
    let started := (HeartbeatThread.start
                      (HeartbeatThread.init (instance_id self))).1 in
    ret {| mcp := mcp self; port := port self; instance_id := instance_id self;
           heartbeat := Some started |}.

Definition _unregister_instance (I : Ida) (self : t) : py t :=
  let self :=
    match heartbeat self with
    | Some hb =>
        let _ := HeartbeatThread.stop hb in
        {| mcp := mcp self; port := port self; instance_id := instance_id self;
           heartbeat := None |}
    | None => self
    end in
  if negb (registry_importable I) then ret self
  else unregister_instance (instance_id self);; ret self.

End MCP.

(** An IDA session on [x.exe], and one in which IDA gives no file name. *)
Definition ida_with_binary : Ida :=
  {| get_root_filename := Some (Some "x.exe");
     get_input_file_path := Some (Some "/bin/x.exe");
     registry_importable := true |}.

Definition ida_without_binary : Ida :=
  {| get_root_filename := Some (Some "");
     get_input_file_path := None;
     registry_importable := true |}.

(** A plugin that serves on port 13337 under the instance id "a". *)
Definition sample_plugin : MCP.t :=
  {| MCP.mcp := true; MCP.port := 13337; MCP.instance_id := "a";
     MCP.heartbeat := None |}.
(** * Basic facts *)

Ltac py_unfold :=
  repeat progress
    unfold mbind, py_bind, bind, mret, py_ret, ret, raise, try_except,
      getitem, json_load, read_json, open_read, write_json, unlink_missing_ok,
      path_exists, _ensure_registry_dir, from_json, setitem_timestamp,
      is_alive, os_kill, and_then, py_not, try_bind in *.

Lemma ends_with_app (suffix s : string) : ends_with suffix (s +:+ suffix) = true.
Proof.
  induction s as [|c s IH]; simpl.
  - destruct suffix; simpl; [done|].
    by rewrite Ascii.eqb_refl, String.eqb_refl.
  - rewrite IH. apply orb_true_r.
Qed.

Lemma _instance_file_json (i : string) :
  ends_with ".json" (_instance_file i) = true.
Proof. apply ends_with_app. Qed.

Lemma string_length_app (s t : string) :
  String.length (s +:+ t) = (String.length s + String.length t)%nat.
Proof. induction s; simpl; [done | by f_equal]. Qed.

Lemma string_app_inj_r (s1 s2 t : string) : s1 +:+ t = s2 +:+ t → s1 = s2.
Proof.
  revert s2. induction s1 as [|a s1 IH]; intros [|b s2] H; simpl in *; try done.
  - apply (f_equal String.length) in H.
    rewrite ?string_length_app in H. simpl in H.
    rewrite ?string_length_app in H. lia.
  - apply (f_equal String.length) in H.
    rewrite ?string_length_app in H. simpl in H.
    rewrite ?string_length_app in H. lia.
  - injection H as -> H. f_equal. by apply IH.
Qed.

(** File names of distinct ids are distinct strings. *)
Lemma _instance_file_inj (i j : string) :
  _instance_file i = _instance_file j → i = j.
Proof. apply string_app_inj_r. Qed.

#[global] Arguments from_dict : simpl never.
#[global] Arguments record_of : simpl never.
#[global] Arguments round_double : simpl never.
#[global] Arguments valid_id : simpl never.

(** [from_dict] reads no file and changes none. *)
Lemma from_dict_pure (d : dict) (st : store) :
  from_dict d st = ((from_dict d ∅).1, st).
Proof.
  unfold from_dict. py_unfold.
  destruct d as [[?|] [?|] [?|] [?|] ? [?|] [?|]]; reflexivity.
Qed.

(** [from_dict] raises nothing but [KeyError]. *)
Lemma from_dict_raises (d : dict) (e : exn) :
  (from_dict d ∅).1 = Raise e → is_registry_error e = true.
Proof.
  unfold from_dict. py_unfold.
  destruct d as [[?|] [?|] [?|] [?|] ? [?|] [?|]]; simpl; intros [= <-]; done.
Qed.

Lemma from_dict_to_dict (info : InstanceInfo) (st : store) :
  from_dict (to_dict info) st = (Return info, st).
Proof. by destruct info. Qed.

Lemma record_of_to_dict (info : InstanceInfo) :
  record_of (File (Doc (to_dict info))) = Some info.
Proof. by destruct info. Qed.

Lemma record_of_Some (e : entry) (info : InstanceInfo) :
  record_of e = Some info →
  ∃ d, e = File (Doc d) ∧ (from_dict d ∅).1 = Return info.
Proof.
  unfold record_of. destruct e as [[x| | |d]|]; try done.
  destruct ((from_dict d ∅).1) as [info'|] eqn:Hd; [|done].
  intros [= ->]. by exists d.
Qed.

(** * Floating-point subtraction and staleness *)

Lemma pow2_pos (e : Z) : (0 < pow2 e)%Q.
Proof. apply Qpower_0_lt. reflexivity. Qed.

Lemma pow2_add (a b : Z) : (pow2 (a + b) == pow2 a * pow2 b)%Q.
Proof. apply Qpower_plus. discriminate. Qed.

Lemma pow2_inject (n : Z) : (0 ≤ n)%Z → (inject_Z (2 ^ n) == pow2 n)%Q.
Proof. intros Hn. apply (Zpower_Qpower 2 n Hn). Qed.

Lemma pow2_lt_inv (a b : Z) : (pow2 a < pow2 b)%Q → (a < b)%Z.
Proof. intros H. apply (Qpower_lt_compat_l_inv 2); [exact H | reflexivity]. Qed.

Lemma pow2_le (a b : Z) : (a ≤ b)%Z → (pow2 a <= pow2 b)%Q.
Proof. intros H. apply Qpower_le_compat_l; [exact H | discriminate]. Qed.

(** Rounding to the nearest integer is monotone around every integer, and a
    tie above an even integer goes down to it. *)
Lemma round_half_even_le (x : Q) (k : Z) :
  (x <= inject_Z k)%Q → (round_half_even x ≤ k)%Z.
Proof.
  intros Hx. unfold round_half_even.
  pose proof (Qfloor_le x) as Hf. pose proof (Qlt_floor x) as Hc.
  rewrite inject_Z_plus in Hc. change (inject_Z 1) with 1%Q in Hc.
  set (f := Qfloor x) in *.
  assert (Hfk : (f ≤ k)%Z) by (rewrite Zle_Qle; lra).
  destruct (Z.eq_dec f k) as [Heq|Hne].
  - rewrite Heq in *.
    destruct (Qcompare_spec (x - inject_Z k) (1 # 2));
      [exfalso; lra | lia | exfalso; lra].
  - destruct (Qcompare_spec (x - inject_Z f) (1 # 2));
      try destruct (Z.even f); lia.
Qed.

Lemma round_half_even_ge (x : Q) (k : Z) :
  (inject_Z k <= x)%Q → (k ≤ round_half_even x)%Z.
Proof.
  intros Hx. unfold round_half_even.
  pose proof (Qfloor_le x) as Hf. pose proof (Qlt_floor x) as Hc.
  rewrite inject_Z_plus in Hc. change (inject_Z 1) with 1%Q in Hc.
  set (f := Qfloor x) in *.
  assert (Hfk : (k < f + 1)%Z)
    by (rewrite Zlt_Qlt, inject_Z_plus; change (inject_Z 1) with 1%Q; lra).
  destruct (Qcompare_spec (x - inject_Z f) (1 # 2));
    try destruct (Z.even f); lia.
Qed.

Lemma round_half_even_tie (x : Q) (k : Z) :
  Z.even k = true →
  (x <= inject_Z k + (1 # 2))%Q → (round_half_even x ≤ k)%Z.
Proof.
  intros Hk Hx. unfold round_half_even.
  pose proof (Qfloor_le x) as Hf. pose proof (Qlt_floor x) as Hc.
  rewrite inject_Z_plus in Hc. change (inject_Z 1) with 1%Q in Hc.
  set (f := Qfloor x) in *.
  assert (Hfk : (f < k + 1)%Z)
    by (rewrite Zlt_Qlt, inject_Z_plus; change (inject_Z 1) with 1%Q; lra).
  destruct (Z.eq_dec f k) as [Heq|Hne].
  - rewrite Heq in *. rewrite Hk.
    destruct (Qcompare_spec (x - inject_Z k) (1 # 2));
      [lia | lia | exfalso; lra].
  - destruct (Qcompare_spec (x - inject_Z f) (1 # 2));
      try destruct (Z.even f); lia.
Qed.

Lemma round_half_even_above (x : Q) (k : Z) :
  (inject_Z k + (1 # 2) < x)%Q → (k + 1 ≤ round_half_even x)%Z.
Proof.
  intros Hx. unfold round_half_even.
  pose proof (Qfloor_le x) as Hf. pose proof (Qlt_floor x) as Hc.
  rewrite inject_Z_plus in Hc. change (inject_Z 1) with 1%Q in Hc.
  set (f := Qfloor x) in *.
  assert (Hfk : (k < f + 1)%Z)
    by (rewrite Zlt_Qlt, inject_Z_plus; change (inject_Z 1) with 1%Q; lra).
  destruct (Z.eq_dec f k) as [Heq|Hne].
  - rewrite Heq in *.
    destruct (Qcompare_spec (x - inject_Z k) (1 # 2));
      [exfalso; lra | exfalso; lra | lia].
  - destruct (Qcompare_spec (x - inject_Z f) (1 # 2));
      try destruct (Z.even f); lia.
Qed.

Lemma ilog2_small (q : Q) : (q < 1)%Q → (ilog2 q ≤ 0)%Z.
Proof.
  intros Hq. unfold ilog2.
  destruct (Qle_bool 1 q) eqn:Hb.
  - apply Qle_bool_iff in Hb. exfalso. lra.
  - pose proof (Z.log2_up_nonneg (Qceiling (/ q))). lia.
Qed.

Lemma ilog2_spec (q : Q) :
  (1 <= q)%Q →
  (0 ≤ ilog2 q)%Z ∧ (pow2 (ilog2 q) <= q)%Q ∧ (q < pow2 (ilog2 q + 1))%Q.
Proof.
  intros Hq. unfold ilog2.
  rewrite (proj2 (Qle_bool_iff 1 q) Hq).
  pose proof (Qfloor_le q) as Hf. pose proof (Qlt_floor q) as Hc.
  assert (H1 : (1 ≤ Qfloor q)%Z).
  { change 1%Z with (Qfloor 1). by apply Qfloor_resp_le. }
  set (f := Qfloor q) in *.
  destruct (Z.log2_spec f) as [Hlo Hhi]; [lia|].
  pose proof (Z.log2_nonneg f) as Hnn.
  split; [exact Hnn|]. split.
  - rewrite <- pow2_inject by exact Hnn.
    apply Qle_trans with (inject_Z f); [|exact Hf]. by rewrite <- Zle_Qle.
  - rewrite <- pow2_inject by lia.
    apply Qlt_le_trans with (inject_Z (f + 1)); [exact Hc|].
    rewrite <- Zle_Qle. unfold Z.succ in Hhi. lia.
Qed.

Lemma round_double_pos_nonneg (q : Q) :
  (0 <= q)%Q → (0 <= round_double_pos q)%Q.
Proof.
  intros Hq. unfold round_double_pos.
  set (e := Z.max (-1074) (ilog2 q - 52)).
  pose proof (pow2_pos e) as Hp.
  apply Qmult_le_0_compat; [|lra].
  change 0%Q with (inject_Z 0). rewrite <- Zle_Qle.
  apply round_half_even_ge.
  apply Qle_shift_div_l; [exact Hp|]. change (inject_Z 0) with 0%Q. lra.
Qed.

(** Up to 32 the rounded value stays at or below 32. *)
Lemma round_double_pos_le_32 (q : Q) :
  (q <= 32)%Q → (ilog2 q ≤ 4)%Z → (round_double_pos q <= 32)%Q.
Proof.
  intros Hq HL. unfold round_double_pos.
  set (e := Z.max (-1074) (ilog2 q - 52)).
  assert (He : (e ≤ 5)%Z) by (unfold e; lia).
  pose proof (pow2_pos e) as Hp.
  assert (H32 : (inject_Z (2 ^ (5 - e)) * pow2 e == 32)%Q).
  { rewrite pow2_inject by lia. rewrite <- pow2_add.
    replace (5 - e + e)%Z with 5%Z by lia. reflexivity. }
  rewrite <- H32. apply Qmult_le_compat_r; [|lra].
  rewrite <- Zle_Qle. apply round_half_even_le.
  apply Qle_shift_div_r; [exact Hp|]. rewrite H32. exact Hq.
Qed.

(** From 64 on the rounded value stays at or above 64. *)
Lemma round_double_pos_ge_64 (q : Q) :
  (64 <= q)%Q → (64 <= round_double_pos q)%Q.
Proof.
  intros Hq.
  destruct (ilog2_spec q) as (Hnn & Hlo & Hhi); [lra|].
  assert (HL : (6 ≤ ilog2 q)%Z).
  { assert (H : (6 < ilog2 q + 1)%Z); [|lia].
    apply pow2_lt_inv. change (pow2 6) with 64%Q. lra. }
  unfold round_double_pos.
  set (L := ilog2 q) in *.
  replace (Z.max (-1074) (L - 52)) with (L - 52)%Z by lia.
  pose proof (pow2_pos (L - 52)) as Hp.
  assert (HpL : (inject_Z (2 ^ 52) * pow2 (L - 52) == pow2 L)%Q).
  { rewrite pow2_inject by lia. rewrite <- pow2_add.
    replace (52 + (L - 52))%Z with L by lia. reflexivity. }
  apply Qle_trans with (pow2 L).
  - change 64%Q with (pow2 6). by apply pow2_le.
  - rewrite <- HpL. apply Qmult_le_compat_r; [|lra].
    rewrite <- Zle_Qle. apply round_half_even_ge.
    apply Qle_shift_div_l; [exact Hp|]. rewrite HpL. exact Hlo.
Qed.

(** Between 32 and 64 the binary64 numbers are the multiples of 2^-47. *)
Lemma round_double_pos_32_64 (q : Q) :
  (32 <= q)%Q → (q < 64)%Q →
  round_double_pos q =
    (inject_Z (round_half_even (q / (1 # 140737488355328)))
     * (1 # 140737488355328))%Q.
Proof.
  intros Hlo32 Hhi64.
  destruct (ilog2_spec q) as (Hnn & Hlo & Hhi); [lra|].
  assert (HL : ilog2 q = 5%Z).
  { assert (H1 : (ilog2 q < 6)%Z).
    { apply pow2_lt_inv. change (pow2 6) with 64%Q. lra. }
    assert (H2 : (5 < ilog2 q + 1)%Z).
    { apply pow2_lt_inv. change (pow2 5) with 32%Q. lra. }
    lia. }
  unfold round_double_pos. rewrite HL. reflexivity.
Qed.

Lemma round_double_pos_gt_60 (q : Q) :
  (0 < q)%Q →
  (60 < round_double_pos q)%Q ↔ (60 + (1 # 281474976710656) < q)%Q.
Proof.
  intros Hpos.
  destruct (Qlt_le_dec q 32) as [H32|H32].
  - assert (HL : (ilog2 q ≤ 4)%Z).
    { destruct (Qlt_le_dec q 1) as [H1|H1].
      - pose proof (ilog2_small q H1). lia.
      - destruct (ilog2_spec q H1) as (_ & Hlo & _).
        assert (H : (ilog2 q < 5)%Z); [|lia].
        apply pow2_lt_inv. change (pow2 5) with 32%Q. lra. }
    pose proof (round_double_pos_le_32 q (Qlt_le_weak _ _ H32) HL).
    split; intros; exfalso; lra.
  - destruct (Qlt_le_dec q 64) as [H64|H64].
    + rewrite (round_double_pos_32_64 q H32 H64).
      set (p := (1 # 140737488355328)%Q).
      set (k := 8444249301319680%Z).
      assert (Hp : (0 < p)%Q) by reflexivity.
      assert (Hk : (inject_Z k * p == 60)%Q) by reflexivity.
      split.
      * intros Hgt.
        destruct (Qlt_le_dec (60 + (1 # 281474976710656)) q) as [?|Hle];
          [assumption|].
        exfalso.
        assert (Hr : (round_half_even (q / p) ≤ k)%Z).
        { apply round_half_even_tie; [reflexivity|].
          apply Qle_shift_div_r; [exact Hp|].
          rewrite Qmult_plus_distr_l, Hk. unfold p. lra. }
        rewrite Zle_Qle in Hr.
        apply (Qmult_le_compat_r _ _ p) in Hr; [|lra].
        rewrite Hk in Hr. lra.
      * intros Hgt.
        assert (Hr : (k + 1 ≤ round_half_even (q / p))%Z).
        { apply round_half_even_above.
          apply Qlt_shift_div_l; [exact Hp|].
          rewrite Qmult_plus_distr_l, Hk. unfold p. lra. }
        rewrite Zle_Qle in Hr.
        apply (Qmult_le_compat_r _ _ p) in Hr; [|lra].
        rewrite inject_Z_plus, Qmult_plus_distr_l, Hk in Hr.
        change (inject_Z 1) with 1%Q in Hr. unfold p in *. lra.
    + pose proof (round_double_pos_ge_64 q H64).
      split; intros; lra.
Qed.

(** [x - y > 60] on floats: the rounded difference exceeds 60 exactly when
    the exact difference exceeds 60 by more than 2^-48, half the distance
    from 60 to the next float. *)
Lemma round_double_gt_60 (q : Q) :
  (60 < round_double q)%Q ↔ (60 + (1 # 281474976710656) < q)%Q.
Proof.
  unfold round_double.
  destruct (Qcompare_spec q 0) as [H0|Hneg|Hpos].
  - split; intros; exfalso; lra.
  - assert (Hn : (0 <= - q)%Q) by lra.
    pose proof (round_double_pos_nonneg (- q) Hn).
    split; intros; exfalso; lra.
  - by apply round_double_pos_gt_60.
Qed.

Lemma Qgtb_true (x y : Q) : Qgtb x y = true ↔ (y < x)%Q.
Proof.
  unfold Qgtb. rewrite negb_true_iff, <- not_true_iff_false, Qle_bool_iff.
  split; [apply Qnot_le_lt | apply Qlt_not_le].
Qed.

Lemma is_stale_spec (E : Env) (info : InstanceInfo) :
  is_stale E info = true ↔
  (60 + (1 # 281474976710656) < time_time E - timestamp info)%Q.
Proof.
  unfold is_stale, float_sub, STALE_TIMEOUT.
  rewrite Qgtb_true. apply round_double_gt_60.
Qed.

(** A record whose timestamp is at most 60 seconds behind the clock is not
    stale. *)
Lemma is_stale_within (E : Env) (info : InstanceInfo) :
  (time_time E <= timestamp info + 60)%Q → is_stale E info = false.
Proof.
  intros Hle. apply not_true_iff_false. rewrite is_stale_spec. lra.
Qed.

(** A record written at the current clock reading is not stale. *)
Lemma is_stale_now (E : Env) (info : InstanceInfo) :
  timestamp info = time_time E → is_stale E info = false.
Proof. intros Ht. apply is_stale_within. rewrite Ht. lra. Qed.


(** * Lookup by id *)

Lemma find_instance_by_id_eq (i : string) (st : store) :
  find_instance_by_id i st =
    (match st !! _instance_file i with
     | Some (File (Unreadable x)) =>
         if is_registry_error x then Return None else Raise x
     | Some (File NotObject) => Raise TypeError
     | o => Return (o ≫= record_of)
     end, st).
Proof.
  unfold find_instance_by_id. py_unfold.
  destruct (st !! _instance_file i) as [[[x| | |d]|]|] eqn:Hf; simpl;
    rewrite ?Hf; simpl; try done.
  { by destruct (is_registry_error x). }
  rewrite from_dict_pure. unfold record_of.
  destruct ((from_dict d ∅).1) as [info|e] eqn:Hd; simpl; [done|].
  by rewrite (from_dict_raises _ _ Hd).
Qed.

(** [find_instance_by_id] never changes the directory. *)
Lemma find_instance_by_id_reads (i : string) (st : store) :
  (find_instance_by_id i st).2 = st.
Proof. by rewrite find_instance_by_id_eq. Qed.

(** C2, as stated, fails: a file that is not JSON makes [find_instance_by_id]
    return [None], but the file is still in the directory afterwards. *)
Lemma find_instance_by_id_keeps_corrupt_file :
  find_instance_by_id "x" corrupt_store = (Return None, corrupt_store) ∧
  (find_instance_by_id "x" corrupt_store).2 !! _instance_file "x"
    = Some (File Malformed).
Proof. split; by rewrite find_instance_by_id_eq. Qed.

(** C2, amended: for an id that is a valid file name, [find_instance_by_id]
    returns [None], without raising, when the file is missing, when it holds
    text that is not JSON and when it holds a JSON object that lacks a
    required key (also when the path is a directory); it returns the record
    when the object has every required key.  In
    no case, whatever the file holds, does it delete or change the file or
    any other entry.  (What it returns for a file that is not UTF-8 text, or
    whose JSON is not an object, is not part of the statement.) *)
Theorem find_instance_by_id_absent_without_delete (i : string) (st : store) :
  valid_id i = true →
  (find_instance_by_id i st).2 = st ∧
  match st !! _instance_file i with
  | None | Some Directory | Some (File Malformed) =>
      find_instance_by_id i st = (Return None, st)
  | Some (File (Doc d)) =>
      match (from_dict d st).1 with
      | Return info => find_instance_by_id i st = (Return (Some info), st)
      | Raise _ => find_instance_by_id i st = (Return None, st)
      end
  | Some (File (Unreadable x)) =>
      is_registry_error x = true →
      find_instance_by_id i st = (Return None, st)
  | Some (File NotObject) => True
  end.
Proof.
  intros _. split; [apply find_instance_by_id_reads|].
  rewrite find_instance_by_id_eq.
  destruct (st !! _instance_file i) as [[[x| | |d]|]|]; simpl; try done.
  { by intros ->. }
  rewrite from_dict_pure. unfold record_of. simpl.
  by destruct ((from_dict d ∅).1).
Qed.

Lemma find_instance_by_id_absent_without_delete_witness :
  valid_id "x" = true ∧
  (find_instance_by_id "x" corrupt_store).2 = corrupt_store ∧
  find_instance_by_id "x" corrupt_store = (Return None, corrupt_store) ∧
  find_instance_by_id "a" (sample_store 900 7)
    = (Return (Some (sample_info 900 7)), sample_store 900 7).
Proof.
  split; [reflexivity|].
  destruct (find_instance_by_id_absent_without_delete "x" corrupt_store
              eq_refl) as [Hsame Hnone].
  destruct (find_instance_by_id_absent_without_delete "a" (sample_store 900 7)
              eq_refl) as [_ Hsome].
  split; [exact Hsame|]. split; [exact Hnone | exact Hsome].
Defined.

(** * Registration *)

Lemma register_instance_eq (E : Env) (i h : string) (p : Z) (bn bp : string)
    (st : store) :
  register_instance E i h p bn bp st =
    match st !! _instance_file i with
    | Some Directory => (Raise OSError, st)
    | _ =>
        let info := mkInstanceInfo i h p bn bp (os_getpid E) (time_time E) in
        (Return info, <[_instance_file i := File (Doc (to_dict info))]> st)
    end.
Proof.
  unfold register_instance. py_unfold.
  by destruct (st !! _instance_file i) as [[|]|].
Qed.

(** C3, as stated, fails: the owner process id is not an argument of
    [register_instance].  The same call made by process 100 and by process
    200 persists two different [pid] members. *)
Lemma register_instance_pid_not_supplied :
  (register_instance (machine 5 100) "a" "127.0.0.1" 13337 "x.exe" "/bin/x.exe"
     ∅).2 !! _instance_file "a" = Some (File (Doc (sample_dict 5 100))) ∧
  (register_instance (machine 5 200) "a" "127.0.0.1" 13337 "x.exe" "/bin/x.exe"
     ∅).2 !! _instance_file "a" = Some (File (Doc (sample_dict 5 200))) ∧
  d_pid (sample_dict 5 100) ≠ d_pid (sample_dict 5 200).
Proof. repeat split; [reflexivity ..|]. intros [=]. Qed.

(** C3, amended: [register_instance] persists, under the file of the id, a
    dictionary whose [instance_id], [host], [port], [binary_name] and
    [binary_path] are the caller's arguments, whose [pid] is [os.getpid()]
    of the calling process and whose [timestamp] is the current time; it
    returns that record and touches no other file.  When the path of the
    file is a directory it raises [OSError] and changes nothing. *)
Theorem register_instance_persists (E : Env) (i h : string) (p : Z)
    (bn bp : string) (st : store) :
  match st !! _instance_file i with
  | Some Directory => register_instance E i h p bn bp st = (Raise OSError, st)
  | _ =>
      ∃ info st',
        register_instance E i h p bn bp st = (Return info, st') ∧
        st' !! _instance_file i =
          Some (File (Doc {| d_instance_id := Some i; d_host := Some h;
                             d_port := Some p; d_binary_name := Some bn;
                             d_binary_path := Some bp;
                             d_pid := Some (os_getpid E);
                             d_timestamp := Some (time_time E) |})) ∧
        info = {| instance_id := i; host := h; port := p; binary_name := bn;
                  binary_path := bp; pid := os_getpid E;
                  timestamp := time_time E |} ∧
        ∀ n, n ≠ _instance_file i → st' !! n = st !! n
  end.
Proof.
  rewrite register_instance_eq.
  destruct (st !! _instance_file i) as [[c|]|] eqn:Hf; try done;
    (eexists _, _; split; [done|]; split; [by rewrite lookup_insert_eq|];
     split; [done|]; intros n Hn; by rewrite lookup_insert_ne).
Qed.

(** * Unregistration *)

Lemma unregister_instance_eq (i : string) (st : store) :
  unregister_instance i st =
    match st !! _instance_file i with
    | Some Directory => (Return false, st)
    | _ => (Return true, delete (_instance_file i) st)
    end.
Proof.
  unfold unregister_instance. py_unfold.
  by destruct (st !! _instance_file i) as [[|]|].
Qed.

(** C9, as stated, fails: when a directory sits at the path of the file, the
    id has no persisted record ([find_instance_by_id] finds none), yet
    [unregister_instance] returns [False]: the unlink raises [OSError] and
    the [except] clause turns it into a failure. *)
Lemma unregister_instance_fails_on_directory :
  directory_store !! _instance_file "a" ≫= record_of = None ∧
  find_instance_by_id "a" directory_store = (Return None, directory_store) ∧
  unregister_instance "a" directory_store = (Return false, directory_store).
Proof.
  split; [reflexivity|].
  by rewrite find_instance_by_id_eq, unregister_instance_eq.
Qed.

(** C9, amended: for an id that is a valid file name and at whose path
    nothing exists, [unregister_instance] returns [True] and leaves the
    directory, so every record, unchanged.  When a directory sits at the
    path it returns [False], also leaving everything unchanged. *)
Theorem unregister_instance_absent (i : string) (st : store) :
  valid_id i = true →
  (st !! _instance_file i = None →
   unregister_instance i st = (Return true, st)) ∧
  (st !! _instance_file i = Some Directory →
   unregister_instance i st = (Return false, st)).
Proof.
  intros _. rewrite unregister_instance_eq.
  split; intros Hf; rewrite Hf; [by rewrite delete_id | done].
Qed.

Lemma unregister_instance_absent_witness :
  valid_id "nonexistent" = true ∧
  corrupt_store !! _instance_file "nonexistent" = None ∧
  unregister_instance "nonexistent" corrupt_store = (Return true, corrupt_store) ∧
  unregister_instance "a" directory_store = (Return false, directory_store).
Proof.
  split; [reflexivity|]. split; [reflexivity|]. split.
  - apply (unregister_instance_absent "nonexistent" corrupt_store eq_refl).
    reflexivity.
  - apply (unregister_instance_absent "a" directory_store eq_refl).
    reflexivity.
Defined.

(** * Heartbeat *)

Lemma refresh_instance_eq (E : Env) (i : string) (st : store) :
  refresh_instance E i st =
    match st !! _instance_file i with
    | Some (File (Doc d)) =>
        (Return true,
         <[_instance_file i := File (Doc (set_timestamp d (time_time E)))]> st)
    | Some (File (Unreadable x)) =>
        (if is_registry_error x then Return false else Raise x, st)
    | Some (File NotObject) => (Raise TypeError, st)
    | _ => (Return false, st)
    end.
Proof.
  unfold refresh_instance. py_unfold.
  destruct (st !! _instance_file i) as [[[x| | |d]|]|] eqn:Hf; simpl;
    rewrite ?Hf; simpl; try done.
  by destruct (is_registry_error x).
Qed.

(** C4: the claim fails on the code.  With a file that holds the JSON text
    of a list at the path of the instance, no record exists for the id, yet
    [refresh_instance] does not return [False]: the item assignment raises
    [TypeError], which the [except] clause does not name.  A file that is
    not UTF-8 text makes it raise [UnicodeDecodeError] in the same way. *)
Theorem refresh_instance_raises_on_foreign_file :
  list_store !! _instance_file "a" ≫= record_of = None ∧
  refresh_instance (machine 1000 42) "a" list_store
    = (Raise TypeError, list_store) ∧
  refresh_instance (machine 1000 42) "x" undecodable_store
    = (Raise UnicodeDecodeError, undecodable_store).
Proof. split; [reflexivity|]. by rewrite !refresh_instance_eq. Qed.




(** Under a clock that is never set back, no operation leaves a timestamp
    ahead of the clock: a registry that starts empty only ever holds records
    stamped at or before the current reading. *)
Lemma stamped_by_empty (t : Q) : stamped_by t ∅.
Proof. intros n d stamp Hn. by rewrite lookup_empty in Hn. Qed.

Lemma stamped_by_later (t t' : Q) (st : store) :
  (t <= t')%Q → stamped_by t st → stamped_by t' st.
Proof.
  intros Hle Hst n d stamp Hn Hd. apply Qle_trans with t; [|done].
  by apply (Hst n d).
Qed.

Lemma stamped_by_submap (t : Q) (st st' : store) :
  (∀ n e, st' !! n = Some e → st !! n = Some e) →
  stamped_by t st → stamped_by t st'.
Proof. intros Hsub Hst n d stamp Hn. apply (Hst n d). by apply Hsub. Qed.

Lemma register_instance_stamped (E : Env) (i h : string) (p : Z)
    (bn bp : string) (st : store) (t : Q) :
  (t <= time_time E)%Q → stamped_by t st →
  stamped_by (time_time E) (register_instance E i h p bn bp st).2.
Proof.
  intros Hle Hst. apply (stamped_by_later _ _ _ Hle) in Hst.
  rewrite register_instance_eq.
  destruct (st !! _instance_file i) as [[c|]|]; simpl; try done;
    (intros n d stamp Hn Hd;
     destruct (decide (n = _instance_file i)) as [->|Hne];
     [ rewrite lookup_insert_eq in Hn; injection Hn as <-;
       injection Hd as <-; apply Qle_refl
     | rewrite lookup_insert_ne in Hn by done; by apply (Hst n d) ]).
Qed.

Lemma refresh_instance_stamped (E : Env) (i : string) (st : store) (t : Q) :
  (t <= time_time E)%Q → stamped_by t st →
  stamped_by (time_time E) (refresh_instance E i st).2.
Proof.
  intros Hle Hst. apply (stamped_by_later _ _ _ Hle) in Hst.
  rewrite refresh_instance_eq.
  destruct (st !! _instance_file i) as [[[x| | |d0]|]|]; simpl; try done.
  intros n d stamp Hn Hd.
  destruct (decide (n = _instance_file i)) as [->|Hne].
  - rewrite lookup_insert_eq in Hn. injection Hn as <-.
    injection Hd as <-. apply Qle_refl.
  - rewrite lookup_insert_ne in Hn by done. by apply (Hst n d).
Qed.

Lemma unregister_instance_stamped (i : string) (st : store) (t : Q) :
  stamped_by t st → stamped_by t (unregister_instance i st).2.
Proof.
  intros Hst. rewrite unregister_instance_eq.
  destruct (st !! _instance_file i) as [[c|]|]; simpl; try done;
    (apply (stamped_by_submap t st); [|done];
     intros n e Hn; by apply lookup_delete_Some in Hn as [_ Hn]).
Qed.

(** * Round trip *)



(** * The loops over the directory *)

(** A well-formed directory holds no entry that makes a sweep raise. *)
Lemma sweepable_entry_escapes (E : Env) (inc : bool) (e : entry) :
  sweepable_entry e = true → escapes E inc e = None.
Proof.
  unfold sweepable_entry, escapes. destruct e as [[x| | |d]|]; try done.
  { by intros ->. }
  destruct (record_of (File (Doc d))) as [info|]; [|done].
  intros ->. by rewrite andb_false_r.
Qed.

Lemma well_formed_escapes (E : Env) (inc : bool) (st : store) :
  well_formed st →
  ∀ n e, ends_with ".json" n = true → st !! n = Some e → escapes E inc e = None.
Proof. intros Hwf n e Hn He. apply sweepable_entry_escapes. by apply (Hwf n e). Qed.



(** One round of the loop of [list_instances]. *)
Lemma list_instances_body_eq (E : Env) (inc : bool) (acc : list InstanceInfo)
    (n : string) (st : store) :
  list_instances_body E inc acc n st =
    match st !! n with
    | Some e =>
        match escapes E inc e with
        | Some x => (Raise x, st)
        | None => (Return (acc ++ option_list (listed E inc e)),
                   if unlinked E inc e then delete n st else st)
        end
    | None => (Return acc, st)
    end.
Proof.
  unfold list_instances_body. py_unfold.
  destruct (st !! n) as [[[x| | |d]|]|] eqn:Hn; simpl; rewrite ?Hn; simpl;
    try done.
  - unfold listed, unlinked, corrupt, record_of.
    destruct (is_registry_error x); simpl; rewrite ?Hn; by rewrite ?app_nil_r.
  - by rewrite app_nil_r.
  - rewrite from_dict_pure. unfold listed, unlinked, corrupt, record_of, reapable.
    destruct ((from_dict d ∅).1) as [info|e] eqn:Hd; simpl.
    + destruct inc, (is_stale E info), (fits_c_int (pid info)),
        (os_kill0 E (pid info)); simpl; rewrite ?Hn; by rewrite ?app_nil_r.
    + rewrite (from_dict_raises _ _ Hd), Hn. by rewrite app_nil_r.
  - by rewrite app_nil_r.
  - by rewrite delete_id.
Qed.

(** One round of the loop of [cleanup_stale_instances]. *)
Lemma cleanup_body_eq (E : Env) (removed : Z) (n : string) (st : store) :
  cleanup_body E removed n st =
    match st !! n with
    | Some e =>
        match escapes E false e with
        | Some x => (Raise x, st)
        | None => (Return (removed + if counted E (Some e) then 1 else 0)%Z,
                   if unlinked E false e then delete n st else st)
        end
    | None => (Return (removed + if counted E None then 1 else 0)%Z, st)
    end.
Proof.
  unfold cleanup_body. py_unfold.
  destruct (st !! n) as [[[x| | |d]|]|] eqn:Hn; simpl; rewrite ?Hn; simpl;
    try done.
  - unfold unlinked, corrupt, record_of.
    destruct (is_registry_error x); simpl; by rewrite ?Hn.
  - rewrite from_dict_pure. unfold unlinked, corrupt, record_of, reapable.
    destruct ((from_dict d ∅).1) as [info|e] eqn:Hd; simpl.
    + destruct (is_stale E info), (fits_c_int (pid info)),
        (os_kill0 E (pid info)); simpl; rewrite ?Hn; by rewrite ?Z.add_0_r.
    + by rewrite (from_dict_raises _ _ Hd), Hn.
  - by rewrite Z.add_0_r.
  - by rewrite delete_id.
Qed.

(** ** A loop whose rounds act on one entry each *)

Lemma list_instances_body_entrywise (E : Env) (inc : bool) :
  acts_entrywise (list_instances_body E inc) (escapes E inc) (unlinked E inc)
    (λ acc o, acc ++ option_list (o ≫= listed E inc)).
Proof.
  intros acc n st. rewrite list_instances_body_eq.
  destruct (st !! n) as [e|]; simpl; [done | by rewrite app_nil_r].
Qed.

Lemma cleanup_body_entrywise (E : Env) :
  acts_entrywise (cleanup_body E) (escapes E false) (unlinked E false)
    (λ removed o, (removed + if counted E o then 1 else 0)%Z).
Proof. intros acc n st. apply cleanup_body_eq. Qed.

Lemma for_each_cons {A X} (x : X) (xs : list X) (body : A → X → py A)
    (acc : A) (st : store) :
  for_each (x :: xs) body acc st =
    match body acc x st with
    | (Return acc', st') => for_each xs body acc' st'
    | (Raise e, st') => (Raise e, st')
    end.
Proof. done. Qed.

Lemma foldl_ext_elem_of {A B} (f g : A → B → A) (l : list B) (a : A) :
  (∀ a x, x ∈ l → f a x = g a x) → foldl f a l = foldl g a l.
Proof.
  revert a. induction l as [|x l IH]; intros a Hfg; [done|]. simpl.
  rewrite (Hfg a x) by apply list_elem_of_here.
  apply IH. intros a' y Hy. apply Hfg. by apply list_elem_of_further.
Qed.

(** When no visited entry lets an exception through, the loop returns:
    the accumulator has seen every entry as it was at the start, and exactly
    the visited entries that are to be unlinked are gone. *)
Lemma sweep_returns {A} (body : A → string → py A) (esc : entry → option exn)
    (unl : entry → bool) (upd : A → option entry → A) (ns : list string) :
  acts_entrywise body esc unl upd →
  NoDup ns →
  ∀ (acc : A) (st : store),
    (∀ n e, n ∈ ns → st !! n = Some e → esc e = None) →
    ∃ st',
      for_each ns body acc st =
        (Return (foldl (λ a n, upd a (st !! n)) acc ns), st') ∧
      ∀ m, st' !! m =
           st !! m ≫= λ e,
             if bool_decide (m ∈ ns) && unl e then None else Some e.
Proof.
  intros Hbody. induction 1 as [|n ns Hn Hns IH]; intros acc st Hesc.
  - exists st. split; [done|]. intros m. by destruct (st !! m).
  - simpl. unfold mbind at 1, py_bind, bind. rewrite Hbody.
    set (st1 := match st !! n with
                | Some e => if unl e then delete n st else st
                | None => st
                end).
    assert (Hother : ∀ m, m ≠ n → st1 !! m = st !! m).
    { intros m Hm. unfold st1. destruct (st !! n) as [e|]; [|done].
      destruct (unl e); [by rewrite lookup_delete_ne | done]. }
    assert (Hsame : st1 !! n =
              st !! n ≫= λ e, if unl e then None else Some e).
    { unfold st1. destruct (st !! n) as [e|] eqn:He; simpl; [|done].
      destruct (unl e); [by rewrite lookup_delete_eq | done]. }
    assert (Hstep :
      match st !! n with
      | Some e =>
          match esc e with
          | Some x => (Raise x, st)
          | None => (Return (upd acc (Some e)),
                     if unl e then delete n st else st)
          end
      | None => (Return (upd acc None), st)
      end = (Return (upd acc (st !! n)), st1)).
    { unfold st1. destruct (st !! n) as [e|] eqn:He; [|done].
      by rewrite (Hesc n e (list_elem_of_here _ _) He). }
    rewrite Hstep.
    destruct (IH (upd acc (st !! n)) st1) as (st' & -> & Hst').
    { intros k e Hk He. rewrite Hother in He by (by intros ->).
      apply (Hesc k e); [by apply list_elem_of_further | done]. }
    exists st'. split.
    + rewrite (foldl_ext_elem_of (λ a k, upd a (st1 !! k))
                 (λ a k, upd a (st !! k))); [done|].
      intros a k Hk. rewrite Hother; [done|]. by intros ->.
    + intros m. rewrite Hst'. destruct (decide (m = n)) as [->|Hm].
      * rewrite Hsame. rewrite (bool_decide_eq_false_2 (n ∈ ns)) by done.
        rewrite (bool_decide_eq_true_2 (n ∈ n :: ns)) by apply list_elem_of_here.
        destruct (st !! n) as [e|]; simpl; [|done].
        by destruct (unl e).
      * rewrite Hother by done.
        destruct (st !! m) as [e|]; simpl; [|done].
        rewrite (bool_decide_ext (m ∈ ns) (m ∈ n :: ns)); [done|].
        rewrite elem_of_cons. split; [by right | by intros [?|?]].
Qed.

(** When some visited entry lets an exception through, the loop raises, and
    what it raises comes from one of the visited entries. *)
Lemma sweep_raises {A} (body : A → string → py A) (esc : entry → option exn)
    (unl : entry → bool) (upd : A → option entry → A) (ns : list string) :
  acts_entrywise body esc unl upd →
  NoDup ns →
  ∀ (acc : A) (st : store) (n : string) (e : entry) (x : exn),
    n ∈ ns → st !! n = Some e → esc e = Some x →
    ∃ y st',
      for_each ns body acc st = (Raise y, st') ∧
      ∃ n' e', n' ∈ ns ∧ st !! n' = Some e' ∧ esc e' = Some y.
Proof.
  intros Hbody. induction 1 as [|k ns Hk Hns IH]; intros acc st n e x Hn He Hx.
  - by apply elem_of_nil in Hn.
  - simpl. unfold mbind at 1, py_bind, bind. rewrite Hbody.
    destruct (st !! k) as [ek|] eqn:Hek.
    + destruct (esc ek) as [y|] eqn:Hy.
      * exists y, st. split; [done|]. exists k, ek.
        split; [apply list_elem_of_here | done].
      * assert (Hne : n ≠ k) by (intros ->; congruence).
        apply elem_of_cons in Hn as [?|Hn]; [done|].
        destruct (IH (upd acc (Some ek))
                    (if unl ek then delete k st else st) n e x Hn)
          as (y & st' & -> & n' & e' & Hn' & He' & Hy'); [|done|].
        { destruct (unl ek); [by rewrite lookup_delete_ne | done]. }
        exists y, st'. split; [done|]. exists n', e'.
        split; [by apply list_elem_of_further|]. split; [|done].
        destruct (unl ek); [|done].
        by apply lookup_delete_Some in He' as [_ He'].
    + assert (Hne : n ≠ k) by (intros ->; congruence).
      apply elem_of_cons in Hn as [?|Hn]; [done|].
      destruct (IH (upd acc None) st n e x Hn He Hx)
        as (y & st' & -> & n' & e' & Hn' & He' & Hy').
      exists y, st'. split; [done|]. exists n', e'.
      split; [by apply list_elem_of_further | done].
Qed.

(** Whether it returns or raises, the loop changes nothing but visited
    entries that are to be unlinked, and those it can only remove. *)
Lemma sweep_frame {A} (body : A → string → py A) (esc : entry → option exn)
    (unl : entry → bool) (upd : A → option entry → A) (ns : list string) :
  acts_entrywise body esc unl upd →
  ∀ (acc : A) (st : store) (m : string),
    (for_each ns body acc st).2 !! m = st !! m ∨
    ((for_each ns body acc st).2 !! m = None ∧ m ∈ ns ∧
     ∃ e, st !! m = Some e ∧ unl e = true).
Proof.
  intros Hbody. induction ns as [|k ns IH]; intros acc st m; [by left|].
  rewrite for_each_cons, Hbody.
  destruct (st !! k) as [ek|] eqn:Hek.
  - destruct (esc ek) as [y|]; [by left|].
    destruct (unl ek) eqn:Hu.
    + destruct (IH (upd acc (Some ek)) (delete k st) m)
        as [Heq|(Hnone & Hin & e & He & Hue)].
      * rewrite Heq. destruct (decide (m = k)) as [->|Hne].
        -- right. rewrite lookup_delete_eq.
           split; [done|]. split; [apply list_elem_of_here | by exists ek].
        -- left. by rewrite lookup_delete_ne.
      * right. split; [done|]. split; [by apply list_elem_of_further|].
        exists e. split; [|done]. by apply lookup_delete_Some in He as [_ He].
    + destruct (IH (upd acc (Some ek)) st m)
        as [Heq|(Hnone & Hin & e & He & Hue)]; [by left|].
      right. split; [done|]. split; [by apply list_elem_of_further|].
      by exists e.
  - destruct (IH (upd acc None) st m)
      as [Heq|(Hnone & Hin & e & He & Hue)]; [by left|].
    right. split; [done|]. split; [by apply list_elem_of_further|].
    by exists e.
Qed.

Lemma glob_names_spec (E : Env) (st : store) :
  scandir_ok E →
  NoDup (glob_names E st) ∧
  ∀ n, n ∈ glob_names E st ↔ ends_with ".json" n = true ∧ is_Some (st !! n).
Proof.
  intros HE. destruct (HE st) as [Hnd Hin]. unfold glob_names. split.
  - by apply NoDup_filter.
  - intros n. by rewrite list_elem_of_filter, Hin, Is_true_true.
Qed.

Lemma lookup_reaped (E : Env) (inc : bool) (st : store) (m : string) :
  reaped E inc st !! m =
    st !! m ≫= λ e,
      if ends_with ".json" m && unlinked E inc e then None else Some e.
Proof.
  unfold reaped. rewrite map_lookup_filter.
  destruct (st !! m) as [e|]; simpl; [|done].
  destruct (ends_with ".json" m), (unlinked E inc e); simpl;
    try case_guard; simpl in *; naive_solver.
Qed.

Lemma foldl_listed (E : Env) (inc : bool) (st : store) (ns : list string)
    (acc : list InstanceInfo) :
  foldl (λ a n, a ++ option_list (st !! n ≫= listed E inc)) acc ns =
    acc ++ omap (λ n, st !! n ≫= listed E inc) ns.
Proof.
  revert acc. induction ns as [|n ns IH]; intros acc; simpl.
  - by rewrite app_nil_r.
  - rewrite IH, <- app_assoc. f_equal. csimpl.
    by destruct (st !! n ≫= listed E inc).
Qed.

Lemma filter_Is_true_cons {A} (f : A → bool) (x : A) (l : list A) :
  filter (λ y, Is_true (f y)) (x :: l) =
    if f x then x :: filter (λ y, Is_true (f y)) l
    else filter (λ y, Is_true (f y)) l.
Proof. rewrite filter_cons. by destruct (f x). Qed.

Lemma filter_Is_true_ext {A} (f g : A → bool) (l : list A) :
  (∀ x, x ∈ l → f x = g x) →
  filter (λ y, Is_true (f y)) l = filter (λ y, Is_true (g y)) l.
Proof.
  induction l as [|x l IH]; intros Hfg; [done|].
  rewrite !filter_Is_true_cons, (Hfg x) by apply list_elem_of_here.
  rewrite IH; [done|]. intros y Hy. apply Hfg. by apply list_elem_of_further.
Qed.


(** The names of a scan that are visited by the loops. *)
Lemma swept_names (E : Env) (st : store) (m : string) (e : entry) :
  scandir_ok E →
  st !! m = Some e →
  bool_decide (m ∈ glob_names E st) = ends_with ".json" m.
Proof.
  intros HE He. destruct (glob_names_spec E st HE) as [_ Hin].
  rewrite (bool_decide_ext _ (ends_with ".json" m = true ∧ is_Some (st !! m)))
    by apply Hin.
  case_bool_decide as Hm.
  - by destruct Hm as [-> _].
  - destruct (ends_with ".json" m); [|done].
    destruct Hm. split; [done|]. by rewrite He.
Qed.

(** [list_instances] on a directory none of whose [*.json] entries lets an
    exception through. *)
Lemma list_instances_eq (E : Env) (inc : bool) (st : store) :
  scandir_ok E →
  (∀ n e, ends_with ".json" n = true → st !! n = Some e →
          escapes E inc e = None) →
  list_instances E inc st =
    (Return (omap (λ n, st !! n ≫= listed E inc) (glob_names E st)),
     reaped E inc st).
Proof.
  intros HE Hesc. destruct (glob_names_spec E st HE) as [Hnd Hin].
  unfold list_instances, glob_json. py_unfold.
  destruct (sweep_returns _ _ _ _ (glob_names E st)
              (list_instances_body_entrywise E inc) Hnd [] st)
    as (st' & -> & Hst').
  { intros n e Hn. apply Hesc. by apply Hin. }
  rewrite foldl_listed. simpl. f_equal. apply map_eq. intros m.
  rewrite Hst', lookup_reaped.
  destruct (st !! m) as [e|] eqn:He; simpl; [|done].
  by rewrite (swept_names E st m e).
Qed.


(** One [*.json] entry that lets an exception through makes the sweeps
    raise. *)
Lemma list_instances_raises (E : Env) (inc : bool) (st : store) (n : string)
    (e : entry) (x : exn) :
  scandir_ok E →
  ends_with ".json" n = true → st !! n = Some e → escapes E inc e = Some x →
  ∃ y st', list_instances E inc st = (Raise y, st') ∧
           ∃ n' e', st !! n' = Some e' ∧ escapes E inc e' = Some y.
Proof.
  intros HE Hn He Hx. destruct (glob_names_spec E st HE) as [Hnd Hin].
  unfold list_instances, glob_json. py_unfold.
  destruct (sweep_raises _ _ _ _ (glob_names E st)
              (list_instances_body_entrywise E inc) Hnd [] st n e x)
    as (y & st' & -> & n' & e' & _ & He' & Hy); [|done|done|].
  { apply Hin. split; [done|]. by rewrite He. }
  exists y, st'. split; [done|]. by exists n', e'.
Qed.

Lemma cleanup_stale_instances_raises (E : Env) (st : store) (n : string)
    (e : entry) (x : exn) :
  scandir_ok E →
  ends_with ".json" n = true → st !! n = Some e → escapes E false e = Some x →
  ∃ y st', cleanup_stale_instances E st = (Raise y, st') ∧
           ∃ n' e', st !! n' = Some e' ∧ escapes E false e' = Some y.
Proof.
  intros HE Hn He Hx. destruct (glob_names_spec E st HE) as [Hnd Hin].
  unfold cleanup_stale_instances, glob_json. py_unfold.
  destruct (sweep_raises _ _ _ _ (glob_names E st)
              (cleanup_body_entrywise E) Hnd 0%Z st n e x)
    as (y & st' & -> & n' & e' & _ & He' & Hy); [|done|done|].
  { apply Hin. split; [done|]. by rewrite He. }
  exists y, st'. split; [done|]. by exists n', e'.
Qed.

(** A sweep that returns has returned what [list_instances_eq] says. *)
Lemma list_instances_Return (E : Env) (inc : bool) (st st' : store)
    (instances : list InstanceInfo) :
  scandir_ok E →
  list_instances E inc st = (Return instances, st') →
  instances = omap (λ n, st !! n ≫= listed E inc) (glob_names E st) ∧
  st' = reaped E inc st.
Proof.
  intros HE Hrun.
  assert (Hesc : ∀ n e, ends_with ".json" n = true → st !! n = Some e →
                        escapes E inc e = None).
  { intros n e Hn He. destruct (escapes E inc e) as [x|] eqn:Hx; [|done].
    destruct (list_instances_raises E inc st n e x HE Hn He Hx)
      as (y & st'' & Hraise & _). congruence. }
  rewrite (list_instances_eq E inc st HE Hesc) in Hrun.
  by injection Hrun as <- <-.
Qed.

(** Whether they return or raise, the sweeps change nothing but [*.json]
    entries that are to be unlinked, and those they can only remove. *)
Lemma list_instances_frame (E : Env) (inc : bool) (st : store) (m : string) :
  (list_instances E inc st).2 !! m = st !! m ∨
  ((list_instances E inc st).2 !! m = None ∧ ends_with ".json" m = true ∧
   ∃ e, st !! m = Some e ∧ unlinked E inc e = true).
Proof.
  unfold list_instances, glob_json. py_unfold.
  destruct (sweep_frame _ _ _ _ (glob_names E st)
              (list_instances_body_entrywise E inc) [] st m)
    as [Heq|(Hnone & Hin & Hu)]; [by left|].
  right. split; [done|]. split; [|done].
  apply list_elem_of_filter in Hin as [Hin _]. by apply Is_true_true.
Qed.

Lemma cleanup_stale_instances_frame (E : Env) (st : store) (m : string) :
  (cleanup_stale_instances E st).2 !! m = st !! m ∨
  ((cleanup_stale_instances E st).2 !! m = None ∧ ends_with ".json" m = true ∧
   ∃ e, st !! m = Some e ∧ unlinked E false e = true).
Proof.
  unfold cleanup_stale_instances, glob_json. py_unfold.
  destruct (sweep_frame _ _ _ _ (glob_names E st)
              (cleanup_body_entrywise E) 0%Z st m)
    as [Heq|(Hnone & Hin & Hu)]; [by left|].
  right. split; [done|]. split; [|done].
  apply list_elem_of_filter in Hin as [Hin _]. by apply Is_true_true.
Qed.



Lemma machine_scandir_ok (now : Q) (me : Z) : scandir_ok (machine now me).
Proof.
  intros st. simpl. unfold scandir_keys. split.
  - apply NoDup_fst_map_to_list.
  - intros n. rewrite list_elem_of_fmap. split.
    + intros ([k e] & -> & Hke). apply elem_of_map_to_list in Hke. by exists e.
    + intros [e He]. exists (n, e). split; [done|]. by apply elem_of_map_to_list.
Qed.


(** * Reaping *)

Lemma reaped_record (E : Env) (inc : bool) (st : store) (n : string)
    (d : dict) (info : InstanceInfo) :
  ends_with ".json" n = true →
  st !! n = Some (File (Doc d)) →
  record_of (File (Doc d)) = Some info →
  reaped E inc st !! n =
    if negb inc && reapable E info then None else Some (File (Doc d)).
Proof.
  intros Hn Hd Hinfo. rewrite lookup_reaped, Hd, Hn. simpl.
  unfold unlinked. by rewrite Hinfo.
Qed.

Lemma listed_record (E : Env) (inc : bool) (st : store) (n : string)
    (d : dict) (info : InstanceInfo) :
  scandir_ok E →
  ends_with ".json" n = true →
  st !! n = Some (File (Doc d)) →
  record_of (File (Doc d)) = Some info →
  negb inc && reapable E info = false →
  info ∈ omap (λ n, st !! n ≫= listed E inc) (glob_names E st).
Proof.
  intros HE Hn Hd Hinfo Hkeep. apply list_elem_of_omap. exists n. split.
  - apply (glob_names_spec E st HE). split; [done|]. by rewrite Hd.
  - rewrite Hd. simpl. unfold listed. by rewrite Hinfo, Hkeep.
Qed.

Lemma listed_Some (E : Env) (inc : bool) (e : entry) (info : InstanceInfo) :
  listed E inc e = Some info →
  record_of e = Some info ∧ negb inc && reapable E info = false.
Proof.
  unfold listed. destruct (record_of e) as [info'|]; [|done].
  destruct (negb inc && reapable E info') eqn:Hk; [done|]. by intros [= <-].
Qed.

(** Reaping only removes files, so it keeps timestamps behind the clock. *)
Lemma reaped_stamped (E : Env) (inc : bool) (st : store) (t : Q) :
  stamped_by t st → stamped_by t (reaped E inc st).
Proof.
  apply stamped_by_submap. intros n e Hn.
  by apply map_lookup_filter_Some in Hn as [Hn _].
Qed.

(** C1: the claim fails on the code.  A record that is stale and whose [pid]
    is 2^31 belongs to no process, so it is stale and its owner is dead; yet
    neither sweep deletes it.  [os.kill] raises [OverflowError] for a pid
    that does not fit a C [int], [is_alive] catches only [OSError], and the
    sweeps let the exception through: both raise and leave the directory as
    it was. *)
Theorem sweeps_raise_on_pid_outside_c_int :
  overflow_store !! "a.json"
    = Some (File (Doc (sample_dict 900 2147483648))) ∧
  is_stale (machine 1000 42) (sample_info 900 2147483648) = true ∧
  os_kill0 (machine 1000 42) (pid (sample_info 900 2147483648)) = false ∧
  list_instances (machine 1000 42) false overflow_store
    = (Raise OverflowError, overflow_store) ∧
  cleanup_stale_instances (machine 1000 42) overflow_store
    = (Raise OverflowError, overflow_store).
Proof. repeat split; by vm_compute. Qed.

(** * Counting removed entries *)




(** C10: the claim fails on the code.  A [*.json] file that is not UTF-8
    text is unparsable, yet [cleanup_stale_instances] neither deletes nor
    counts it: reading it raises [UnicodeDecodeError], which the [except]
    clause that deletes and counts invalid files does not name, so the sweep
    raises and the file stays.  A file with the JSON text of a list, which
    has none of the required fields, makes it raise [TypeError] in the same
    way. *)
Theorem cleanup_raises_on_foreign_file :
  cleanup_stale_instances (machine 1000 42) undecodable_store
    = (Raise UnicodeDecodeError, undecodable_store) ∧
  undecodable_store !! "x.json" = Some (File (Unreadable UnicodeDecodeError)) ∧
  cleanup_stale_instances (machine 1000 42) list_store
    = (Raise TypeError, list_store) ∧
  list_store !! "a.json" = Some (File NotObject).
Proof. repeat split; by vm_compute. Qed.

(** * Lookup by binary name *)



(** C8: the claim fails on the code.  With the fresh record of an instance
    that analyses "MyBinary.EXE" in the directory, the query "mybinary.exe"
    should return that record, and it does when the record is alone; but
    next to a [*.json] file that holds the JSON text of a list
    [find_instance_by_binary] returns nothing at all: the listing it runs
    raises [TypeError]. *)
Theorem find_instance_by_binary_raises_on_foreign_file :
  (∃ info,
     find_instance_by_binary (machine 1000 42) "mybinary.exe"
       (delete "b.json" mixed_store)
       = (Return (Some info), delete "b.json" mixed_store) ∧
     binary_name info = "MyBinary.EXE" ∧
     mixed_store !! "a.json" = Some (File (Doc (to_dict info)))) ∧
  mixed_store !! "b.json" = Some (File NotObject) ∧
  find_instance_by_binary (machine 1000 42) "mybinary.exe" mixed_store
    = (Raise TypeError, mixed_store).
Proof.
  split; [|split; by vm_compute].
  eexists. split; [by vm_compute|]. split; by vm_compute.
Qed.

(** * Port allocation *)

Lemma scan_ports_spec (E : Env) (h : string) (reg : gset Z) (cands : list Z)
    (st : store) :
  match scan_ports E h reg cands st with
  | (Return p, st') =>
      st' = st ∧
      ∃ skipped rest,
        cands = skipped ++ (p :: rest) ∧
        (p ∉ reg) ∧ socket_bind E h p = None ∧
        Forall (λ q, q ∈ reg ∨ socket_bind E h q = Some OSError) skipped
  | (Raise e, st') =>
      st' = st ∧
      ((e = RuntimeError no_ports_message ∧
        Forall (λ q, q ∈ reg ∨ socket_bind E h q = Some OSError) cands) ∨
       (∃ skipped p rest,
          cands = skipped ++ (p :: rest) ∧
          (p ∉ reg) ∧ socket_bind E h p = Some e ∧ e ≠ OSError ∧
          Forall (λ q, q ∈ reg ∨ socket_bind E h q = Some OSError) skipped))
  end.
Proof.
  induction cands as [|c cands IH]; simpl.
  - split; [done|]. by left.
  - case_bool_decide as Hc.
    + destruct (scan_ports E h reg cands st) as [[p|e] st'].
      * destruct IH as (-> & skipped & rest & -> & Hp & Hb & Hsk).
        split; [done|]. exists (c :: skipped), rest.
        repeat split; try done. constructor; [by left|done].
      * destruct IH as (-> & [[-> Hall]|(skipped & p & rest & -> & Hp & Hb & He & Hsk)]).
        -- split; [done|]. left. split; [done|]. constructor; [by left|done].
        -- split; [done|]. right. exists (c :: skipped), p, rest.
           repeat split; try done. constructor; [by left|done].
    + unfold try_bind. py_unfold.
      destruct (socket_bind E h c) as [x|] eqn:Hb; simpl.
      * destruct (is_OSError x) eqn:Hx.
        -- assert (x = OSError) as -> by (by destruct x).
           destruct (scan_ports E h reg cands st) as [[p|e] st'].
           ++ destruct IH as (-> & skipped & rest & -> & Hp & Hb' & Hsk).
              split; [done|]. exists (c :: skipped), rest.
              repeat split; try done. constructor; [by right|done].
           ++ destruct IH as (-> & [[-> Hall]|(skipped & p & rest & -> & Hp & Hb' & He & Hsk)]).
              ** split; [done|]. left. split; [done|].
                 constructor; [by right|done].
              ** split; [done|]. right. exists (c :: skipped), p, rest.
                 repeat split; try done. constructor; [by right|done].
        -- split; [done|]. right. exists [], c, cands.
           repeat split; try done. by intros ->.
      * split; [done|]. by exists [], cands.
Qed.


(** C7: the claim fails on the code.  [find_available_port] takes its
    snapshot with [list_instances()] outside any [try], so a [*.json] file
    that holds the JSON text of a list, or a stale record whose [pid] does
    not fit a C [int], makes it raise [TypeError] or [OverflowError]: it
    neither returns the first free port nor raises the [RuntimeError] that
    names the range, although every port of the range can be bound. *)
Theorem find_available_port_raises_on_foreign_file :
  find_available_port (machine 1000 42) "127.0.0.1" list_store
    = (Raise TypeError, list_store) ∧
  find_available_port (machine 1000 42) "127.0.0.1" overflow_store
    = (Raise OverflowError, overflow_store) ∧
  (∀ q, socket_bind (machine 1000 42) "127.0.0.1" q = None).
Proof. repeat split; by vm_compute. Qed.

(** The scenario of the port-exclusion test: with a fresh record on 13337
    and every port free, the next port is handed out. *)
Example find_available_port_skips_13337 :
  (find_available_port (machine 1000 42) "127.0.0.1" (sample_store 990 7)).1
    = Return 13338%Z.
Proof. by vm_compute. Qed.

(** * A session

    Two registrations, a listing, a lookup by name, a sweep that removes
    nothing, then a sweep after one record went stale with a dead owner. *)
Example registry_session :
  (∃ x y, (list_instances (machine 1000 42) false two_instances).1
            = Return [x; y]) ∧
  (∃ found, (find_instance_by_binary (machine 1000 42) "y.exe" two_instances).1
              = Return (Some found) ∧ instance_id found = "b") ∧
  cleanup_stale_instances (machine 1000 42) two_instances
    = (Return 0%Z, two_instances) ∧
  (cleanup_stale_instances (machine 1000 42) two_instances_aged).1
    = Return 1%Z ∧
  (∃ y, (list_instances (machine 1000 42) false
           (cleanup_stale_instances (machine 1000 42) two_instances_aged).2).1
          = Return [y] ∧ instance_id y = "b").
Proof.
  split; [by eexists _, _; vm_compute|].
  split; [by eexists; split; vm_compute|].
  split; [by vm_compute|].
  split; [by vm_compute|].
  by eexists; split; vm_compute.
Qed.

(** * [InstanceInfo] and its dictionary *)

(** X1: [from_dict(to_dict(info))] is [info]; and when [from_dict] accepts a
    dictionary, [to_dict] of the record is that dictionary with
    [binary_path] filled in (by the empty string when it was absent). *)
Theorem to_dict_from_dict_round_trip (info : InstanceInfo) (d : dict)
    (st : store) :
  from_dict (to_dict info) st = (Return info, st) ∧
  (from_dict d st = (Return info, st) →
   to_dict info =
     {| d_instance_id := d_instance_id d; d_host := d_host d;
        d_port := d_port d; d_binary_name := d_binary_name d;
        d_binary_path := Some (default "" (d_binary_path d));
        d_pid := d_pid d; d_timestamp := d_timestamp d |}).
Proof.
  split; [by destruct info|].
  rewrite from_dict_pure. unfold from_dict. py_unfold.
  destruct d as [[?|] [?|] [?|] [?|] ? [?|] [?|]]; simpl; intros [= <-]; done.
Qed.

Lemma to_dict_from_dict_round_trip_witness :
  from_dict (to_dict (sample_info 900 7)) ∅ = (Return (sample_info 900 7), ∅) ∧
  to_dict (sample_info 900 7) =
    {| d_instance_id := d_instance_id (sample_dict 900 7);
       d_host := d_host (sample_dict 900 7);
       d_port := d_port (sample_dict 900 7);
       d_binary_name := d_binary_name (sample_dict 900 7);
       d_binary_path := Some (default "" (d_binary_path (sample_dict 900 7)));
       d_pid := d_pid (sample_dict 900 7);
       d_timestamp := d_timestamp (sample_dict 900 7) |}.
Proof.
  destruct (to_dict_from_dict_round_trip (sample_info 900 7)
              (sample_dict 900 7) ∅) as [H1 H2].
  split; [exact H1|]. apply H2. reflexivity.
Defined.

Lemma from_dict_Return_iff (d : dict) :
  (∃ info, (from_dict d ∅).1 = Return info) ↔
  is_Some (d_instance_id d) ∧ is_Some (d_host d) ∧ is_Some (d_port d) ∧
  is_Some (d_binary_name d) ∧ is_Some (d_pid d) ∧ is_Some (d_timestamp d).
Proof.
  unfold from_dict. py_unfold.
  destruct d as [[?|] [?|] [?|] [?|] ? [?|] [?|]]; simpl;
    (split; [intros [? [=]] | intros (?&?&?&?&?&?)]);
    repeat match goal with H : is_Some None |- _ => by destruct H end;
    try (repeat split; by eexists); by eexists.
Qed.

Lemma from_dict_Raise_key (d : dict) (e : exn) :
  (from_dict d ∅).1 = Raise e →
  ∃ key, e = KeyError key ∧
         key ∈ ["instance_id"; "host"; "port"; "binary_name"; "pid";
                "timestamp"].
Proof.
  unfold from_dict. py_unfold.
  destruct d as [[?|] [?|] [?|] [?|] ? [?|] [?|]]; simpl; intros [= <-];
    (eexists; split; [done|]; set_solver).
Qed.

Lemma from_dict_binary_path (d : dict) (info : InstanceInfo) :
  (from_dict d ∅).1 = Return info →
  binary_path info = default "" (d_binary_path d).
Proof.
  unfold from_dict. py_unfold.
  destruct d as [[?|] [?|] [?|] [?|] ? [?|] [?|]]; simpl; by intros [= <-].
Qed.

(** X2: [from_dict] succeeds exactly when the six keys it indexes are
    present; a missing [binary_path] is never an error.  When it fails it
    raises [KeyError] for one of those six keys, and it never touches the
    directory. *)
Theorem from_dict_required_keys (d : dict) (st : store) :
  ((∃ info, from_dict d st = (Return info, st)) ↔
     is_Some (d_instance_id d) ∧ is_Some (d_host d) ∧ is_Some (d_port d) ∧
     is_Some (d_binary_name d) ∧ is_Some (d_pid d) ∧
     is_Some (d_timestamp d)) ∧
  (∀ e st', from_dict d st = (Raise e, st') →
     st' = st ∧
     ∃ key, e = KeyError key ∧
            key ∈ ["instance_id"; "host"; "port"; "binary_name"; "pid";
                   "timestamp"]) ∧
  (∀ info, from_dict d st = (Return info, st) →
     binary_path info = default "" (d_binary_path d)).
Proof.
  rewrite from_dict_pure. split; [|split].
  - rewrite <- from_dict_Return_iff. split.
    + intros [info [= H]]. by exists info.
    + intros [info H]. exists info. by rewrite H.
  - intros e st' [= H <-]. split; [done|]. by apply (from_dict_Raise_key d).
  - intros info [= H]. by apply from_dict_binary_path.
Qed.

Lemma from_dict_required_keys_witness :
  (∃ key, (from_dict sample_dict_without_pid ∅).1 = Raise (KeyError key) ∧
          key ∈ ["instance_id"; "host"; "port"; "binary_name"; "pid";
                 "timestamp"]) ∧
  (∃ info, from_dict sample_dict_without_path ∅ = (Return info, ∅) ∧
           binary_path info = "").
Proof.
  destruct (from_dict_required_keys sample_dict_without_pid ∅) as (_ & Hr & _).
  destruct (from_dict_required_keys sample_dict_without_path ∅)
    as (Hok & _ & Hbp).
  split.
  - destruct (Hr (KeyError "pid") ∅ eq_refl) as (_ & key & Hk & Hin).
    exists key. split; [by rewrite <- Hk|done].
  - destruct (proj2 Hok) as [info Hinfo].
    { repeat split; by eexists. }
    exists info. split; [done|]. by rewrite (Hbp info Hinfo).
Defined.

(** * Staleness *)

(** X3: [is_stale] compares the difference of two floats with 60.  A record
    is stale exactly when the clock has passed its timestamp by more than 60
    seconds and 2^-48, half the distance from 60.0 to the next float; up to
    60 seconds it is never stale, and a record that is stale stays stale at
    every later clock reading until it is refreshed.  With the floats 0.1
    and 60.1 the exact difference is above 60 but rounds to 60.0, and the
    record is not stale. *)
Theorem is_stale_threshold (E E' : Env) (info : InstanceInfo) :
  (is_stale E info = true ↔
     (60 + (1 # 281474976710656) < time_time E - timestamp info)%Q) ∧
  ((time_time E <= timestamp info + 60)%Q → is_stale E info = false) ∧
  (is_stale E info = true → (time_time E <= time_time E')%Q →
   is_stale E' info = true).
Proof.
  split; [apply is_stale_spec|]. split; [apply is_stale_within|].
  rewrite !is_stale_spec. lra.
Qed.

Lemma is_stale_threshold_witness :
  is_stale (machine 960 42) (sample_info 900 7) = false ∧
  is_stale (machine 961 42) (sample_info 900 7) = true ∧
  is_stale (machine 5000 42) (sample_info 900 7) = true ∧
  (60 < float_60_1 - float_0_1)%Q ∧
  is_stale (machine float_60_1 42) (sample_info float_0_1 7) = false.
Proof.
  destruct (is_stale_threshold (machine 960 42) (machine 960 42)
              (sample_info 900 7)) as (_ & Hfresh & _).
  destruct (is_stale_threshold (machine 961 42) (machine 5000 42)
              (sample_info 900 7)) as (_ & _ & Hlater).
  destruct (is_stale_threshold (machine float_60_1 42) (machine float_60_1 42)
              (sample_info float_0_1 7)) as (Hiff & _ & _).
  split; [apply Hfresh; simpl; lra|].
  split; [reflexivity|].
  split; [apply Hlater; [reflexivity | simpl; lra]|].
  split; [reflexivity|].
  apply not_true_iff_false. intros Hst. apply Hiff in Hst.
  revert Hst. apply Qle_not_lt. by vm_compute.
Defined.

(** * Well-formed directories *)

Lemma well_formed_singleton (n : string) (e : entry) :
  sweepable_entry e = true → well_formed {[ n := e ]}.
Proof.
  intros He m e' _ Hl. apply lookup_singleton_Some in Hl as [_ <-]. done.
Qed.



Lemma escapes_fresh (E : Env) (inc : bool) (d : dict) (info : InstanceInfo) :
  record_of (File (Doc d)) = Some info →
  is_stale E info = false →
  escapes E inc (File (Doc d)) = None.
Proof.
  intros Hr Hs. unfold escapes. rewrite Hr, Hs. by rewrite andb_false_r.
Qed.


(** * Listing with stale records included *)

(** X4: in a well-formed directory, [list_instances(include_stale=True)]
    returns the record of every [*.json] file that holds one, stale or not,
    dead owner or not, and returns nothing else; it unlinks none of those
    files.  [*.json] files with text that is not JSON, or with an object that
    lacks a required key, are unlinked all the same. *)
Theorem list_instances_include_stale (E : Env) (st : store) :
  scandir_ok E →
  well_formed st →
  ∃ instances st',
    list_instances E true st = (Return instances, st') ∧
    (∀ n d info,
       ends_with ".json" n = true → st !! n = Some (File (Doc d)) →
       record_of (File (Doc d)) = Some info →
       info ∈ instances ∧ st' !! n = Some (File (Doc d))) ∧
    (∀ info, info ∈ instances →
       ∃ n d, ends_with ".json" n = true ∧ st !! n = Some (File (Doc d)) ∧
              record_of (File (Doc d)) = Some info) ∧
    (∀ n e, ends_with ".json" n = true → st !! n = Some e →
            corrupt e = true → st' !! n = None).
Proof.
  intros HE Hwf. eexists _, _.
  split; [apply list_instances_eq; [done | by apply well_formed_escapes]|].
  split; [|split].
  - intros n d info Hn Hd Hinfo. split.
    + by apply (listed_record E true st n d info).
    + by rewrite (reaped_record E true st n d info).
  - intros info Hin. apply list_elem_of_omap in Hin as (n & Hn & Hl).
    apply (glob_names_spec E st HE) in Hn as [Hn [e He]].
    rewrite He in Hl. simpl in Hl. apply listed_Some in Hl as [Hrec _].
    apply record_of_Some in Hrec as (d & -> & Hd).
    exists n, d. split; [done|]. split; [done|]. unfold record_of. by rewrite Hd.
  - intros n e Hn He Hc. rewrite lookup_reaped, He, Hn. simpl.
    unfold unlinked. destruct (record_of e) as [info|] eqn:Hr; [|by rewrite Hc].
    apply record_of_Some in Hr as (d & -> & Hd). unfold corrupt, record_of in Hc.
    by rewrite Hd in Hc.
Qed.

Lemma list_instances_include_stale_witness :
  ∃ instances st',
    list_instances (machine 1000 42) true (sample_store 900 7)
      = (Return instances, st') ∧
    sample_info 900 7 ∈ instances ∧
    st' !! "a.json" = Some (File (Doc (sample_dict 900 7))) ∧
    reapable (machine 1000 42) (sample_info 900 7) = true.
Proof.
  destruct (list_instances_include_stale (machine 1000 42)
              (sample_store 900 7) (machine_scandir_ok 1000 42)
              (well_formed_singleton "a.json"
                 (File (Doc (sample_dict 900 7))) eq_refl))
    as (instances & st' & Hrun & Hall & _ & _).
  exists instances, st'. split; [exact Hrun|].
  destruct (Hall "a.json" (sample_dict 900 7) (sample_info 900 7)
              eq_refl eq_refl eq_refl) as [Hin Hkept].
  split; [exact Hin|]. split; [exact Hkept|]. reflexivity.
Defined.

(** * What the sweeps leave alone *)

(** X5: neither [list_instances] (with either value of [include_stale]) nor
    [cleanup_stale_instances] ever changes an entry whose name does not end
    in [.json], or an entry that is a directory. *)
Theorem sweeps_spare_other_entries (E : Env) (inc : bool) (st : store)
    (n : string) :
  scandir_ok E →
  ends_with ".json" n = false ∨ st !! n = Some Directory →
  (list_instances E inc st).2 !! n = st !! n ∧
  (cleanup_stale_instances E st).2 !! n = st !! n.
Proof.
  intros HE Hn.
  split.
  - destruct (list_instances_frame E inc st n)
      as [Heq|(_ & Hj & e & He & Hu)]; [done|]. exfalso.
    destruct Hn as [Hn|Hn]; [congruence|].
    rewrite Hn in He. injection He as <-. done.
  - destruct (cleanup_stale_instances_frame E st n)
      as [Heq|(_ & Hj & e & He & Hu)]; [done|]. exfalso.
    destruct Hn as [Hn|Hn]; [congruence|].
    rewrite Hn in He. injection He as <-. done.
Qed.

Lemma sweeps_spare_other_entries_witness :
  (list_instances (machine 1000 42) false
     (<["notes.txt" := File Malformed]> (<["d.json" := Directory]> ∅))).2
    !! "notes.txt" = Some (File Malformed) ∧
  (cleanup_stale_instances (machine 1000 42)
     (<["notes.txt" := File Malformed]> (<["d.json" := Directory]> ∅))).2
    !! "d.json" = Some Directory.
Proof.
  split.
  - destruct (sweeps_spare_other_entries (machine 1000 42) false
                (<["notes.txt" := File Malformed]> (<["d.json" := Directory]> ∅))
                "notes.txt" (machine_scandir_ok 1000 42)) as [H _];
      [left; reflexivity | exact H].
  - destruct (sweeps_spare_other_entries (machine 1000 42) false
                (<["notes.txt" := File Malformed]> (<["d.json" := Directory]> ∅))
                "d.json" (machine_scandir_ok 1000 42)) as [_ H];
      [right; reflexivity | exact H].
Defined.

(** * Unregistration of an existing instance *)

(** X6: [unregister_instance] on an id whose file is a regular file returns
    [True] and removes exactly that file, whatever it holds, so that
    [find_instance_by_id] no longer finds the instance; when the path is a
    directory it returns [False] and changes nothing. *)
Theorem unregister_instance_removes (i : string) (st : store) :
  match st !! _instance_file i with
  | Some Directory => unregister_instance i st = (Return false, st)
  | _ =>
      ∃ st',
        unregister_instance i st = (Return true, st') ∧
        st' !! _instance_file i = None ∧
        (∀ n, n ≠ _instance_file i → st' !! n = st !! n) ∧
        find_instance_by_id i st' = (Return None, st')
  end.
Proof.
  rewrite unregister_instance_eq.
  destruct (st !! _instance_file i) as [[c|]|] eqn:Hf; try done;
    (eexists; split; [done|]; split; [apply lookup_delete_eq|];
     split; [intros n Hn; by apply lookup_delete_ne|];
     by rewrite find_instance_by_id_eq, lookup_delete_eq).
Qed.

(** X7: a heartbeat that arrives after the instance was unregistered does not
    bring the record back: [refresh_instance] returns [False] and the file
    stays absent. *)
Theorem refresh_after_unregister (E : Env) (i : string) (st st' : store) :
  unregister_instance i st = (Return true, st') →
  refresh_instance E i st' = (Return false, st') ∧
  st' !! _instance_file i = None.
Proof.
  rewrite unregister_instance_eq, refresh_instance_eq.
  destruct (st !! _instance_file i) as [[c|]|] eqn:Hf; intros [= <-];
    by rewrite lookup_delete_eq.
Qed.

Lemma refresh_after_unregister_witness :
  refresh_instance (machine 1000 7) "a" ∅ = (Return false, ∅) ∧
  (∅ : store) !! _instance_file "a" = None.
Proof.
  apply (refresh_after_unregister (machine 1000 7) "a" (sample_store 900 7) ∅).
  reflexivity.
Defined.

(** * Heartbeats and reaping *)




(** * Sweeping twice *)










(** * The count of the sweep *)



(** * Several instances *)

Lemma for_each_app {A X} (xs ys : list X) (body : A → X → py A) (acc : A)
    (st : store) :
  for_each (xs ++ ys) body acc st =
    match for_each xs body acc st with
    | (Return acc', st') => for_each ys body acc' st'
    | (Raise e, st') => (Raise e, st')
    end.
Proof.
  revert acc st. induction xs as [|x xs IH]; intros acc st; simpl; [done|].
  unfold mbind, py_bind, bind. destruct (body acc x st) as [[acc'|e] st']; [|done].
  apply IH.
Qed.

(** The directory that a sequence of registrations with distinct ids builds
    from an empty one. *)
Lemma register_each_empty (E : Env) (regs : list registration) :
  NoDup (r_instance_id <$> regs) →
  ∃ st',
    register_each E regs ∅ = (Return tt, st') ∧
    ∀ n e, st' !! n = Some e ↔
           ∃ r, r ∈ regs ∧ n = _instance_file (r_instance_id r) ∧
                e = File (Doc (to_dict (registered E r))).
Proof.
  unfold register_each.
  induction regs as [|r regs IH] using rev_ind; intros Hnd.
  - exists ∅. split; [done|]. intros n e. rewrite lookup_empty.
    split; [done|]. intros (r & Hr & _). by apply elem_of_nil in Hr.
  - rewrite fmap_app in Hnd. apply NoDup_app in Hnd as (Hnd & Hfresh & _).
    destruct (IH Hnd) as (st' & Hrun & Hst'). clear IH.
    rewrite for_each_app, Hrun. simpl. unfold mbind, py_bind, bind.
    rewrite register_instance_eq.
    assert (Hnone : st' !! _instance_file (r_instance_id r) = None).
    { destruct (st' !! _instance_file (r_instance_id r)) as [e|] eqn:He; [|done].
      apply Hst' in He as (r' & Hr' & Hname & _).
      apply _instance_file_inj in Hname.
      destruct (Hfresh (r_instance_id r)).
      - rewrite Hname. apply list_elem_of_fmap. by exists r'.
      - apply list_elem_of_here. }
    rewrite Hnone. simpl. eexists. split; [done|].
    intros n e. rewrite lookup_insert_Some, Hst'. split.
    + intros [[<- <-]|[Hne (r' & Hr' & Hn & He)]].
      * exists r. split; [apply elem_of_app; right; apply list_elem_of_here|done].
      * exists r'. split; [apply elem_of_app; by left|done].
    + intros (r' & Hr' & Hn & He). apply elem_of_app in Hr' as [Hr'|Hr'].
      * right. split; [|by exists r'].
        intros Heq. rewrite Hn in Heq. apply _instance_file_inj in Heq.
        destruct (Hfresh (r_instance_id r)).
        -- rewrite Heq. apply list_elem_of_fmap. by exists r'.
        -- apply list_elem_of_here.
      * apply list_elem_of_singleton in Hr' as ->. by left.
Qed.

Lemma omap_fmap_Some {A B} (f : A → option B) (g : A → B) (l : list A) :
  (∀ x, x ∈ l → f x = Some (g x)) → omap f l = g <$> l.
Proof.
  induction l as [|x l IH]; intros Hfg; [done|]. csimpl.
  rewrite (Hfg x) by apply list_elem_of_here. f_equal.
  apply IH. intros y Hy. apply Hfg. by apply list_elem_of_further.
Qed.

Lemma omap_fmap_compose {A B C} (f : B → option C) (h : A → B) (l : list A) :
  omap f (h <$> l) = omap (f ∘ h) l.
Proof. induction l as [|x l IH]; [done|]. csimpl. by rewrite IH. Qed.

(** X12: registering instances whose ids are valid file names and pairwise
    distinct in an empty registry, all on one machine, and then calling
    [list_instances()] returns exactly one record for each registration (in
    the order of the directory scan), each carrying the arguments of its
    registration, the id of the registering process and the time of
    registration; nothing is reaped. *)
Theorem register_each_then_list (E : Env) (regs : list registration) :
  scandir_ok E →
  Forall (λ r, valid_id (r_instance_id r) = true) regs →
  NoDup (r_instance_id <$> regs) →
  ∃ st' instances,
    register_each E regs ∅ = (Return tt, st') ∧
    list_instances E false st' = (Return instances, st') ∧
    instances ≡ₚ registered E <$> regs ∧
    length instances = length regs ∧
    NoDup (instance_id <$> instances).
Proof.
  intros HE _ Hnd.
  destruct (register_each_empty E regs Hnd) as (st' & Hrun & Hst').
  assert (Hlisted : ∀ r, r ∈ regs →
            st' !! _instance_file (r_instance_id r) ≫= listed E false
            = Some (registered E r)).
  { intros r Hr.
    rewrite (proj2 (Hst' _ (File (Doc (to_dict (registered E r)))))) by eauto.
    simpl. unfold listed. rewrite record_of_to_dict. simpl.
    unfold reapable. by rewrite is_stale_now. }
  assert (Hesc : ∀ n e, ends_with ".json" n = true → st' !! n = Some e →
                        escapes E false e = None).
  { intros n e _ He. apply Hst' in He as (r & Hr & -> & ->).
    apply (escapes_fresh E false _ (registered E r));
      [apply record_of_to_dict | by apply is_stale_now]. }
  assert (Hsame : reaped E false st' = st').
  { apply map_eq. intros n. rewrite lookup_reaped.
    destruct (st' !! n) as [e|] eqn:He; simpl; [|done].
    apply Hst' in He as (r & Hr & -> & ->). unfold unlinked.
    rewrite record_of_to_dict. simpl. unfold reapable.
    rewrite is_stale_now by done. by rewrite andb_false_r. }
  assert (Hnames : glob_names E st' ≡ₚ
                   (_instance_file ∘ r_instance_id) <$> regs).
  { destruct (glob_names_spec E st' HE) as [Hnd' Hin].
    apply NoDup_Permutation; [done| |].
    - rewrite list_fmap_compose. apply NoDup_fmap_2; [|done].
      intros ??. apply _instance_file_inj.
    - intros n. rewrite Hin, list_elem_of_fmap. split.
      + intros [_ [e He]]. apply Hst' in He as (r & Hr & -> & _). by exists r.
      + intros (r & -> & Hr). split; [apply _instance_file_json|].
        exists (File (Doc (to_dict (registered E r)))). apply Hst'. eauto. }
  assert (Hperm : omap (λ n, st' !! n ≫= listed E false) (glob_names E st')
                  ≡ₚ registered E <$> regs).
  { rewrite Hnames, omap_fmap_compose. by rewrite (omap_fmap_Some _ (registered E)). }
  exists st', (omap (λ n, st' !! n ≫= listed E false) (glob_names E st')).
  split; [done|]. split; [by rewrite list_instances_eq, Hsame|].
  split; [done|]. split.
  - by rewrite Hperm, length_fmap.
  - rewrite Hperm, <- list_fmap_compose. done.
Qed.

Lemma register_each_then_list_witness :
  ∃ st' instances,
    register_each (machine 1000 42) five_registrations ∅ = (Return tt, st') ∧
    list_instances (machine 1000 42) false st' = (Return instances, st') ∧
    instances ≡ₚ registered (machine 1000 42) <$> five_registrations ∧
    length instances = length five_registrations ∧
    NoDup (instance_id <$> instances).
Proof.
  apply (register_each_then_list (machine 1000 42) five_registrations).
  - apply machine_scandir_ok.
  - repeat constructor.
  - apply (bool_decide_unpack _). by vm_compute.
Defined.

(** * Ports of registered instances *)

(** The port of a record that [list_instances()] returns is never the
    result of [find_available_port], and when the listing raises so does
    [find_available_port]. *)
Lemma listed_port_not_returned (E : Env) (h : string) (st : store)
    (info : InstanceInfo) :
  (∀ instances st', list_instances E false st = (Return instances, st') →
                    info ∈ instances) →
  (find_available_port E h st).1 ≠ Return (port info).
Proof.
  intros Hin. unfold find_available_port, mbind, py_bind, bind.
  destruct (list_instances E false st) as [[instances|x] st'] eqn:Hl; [|done].
  pose proof (scan_ports_spec E h (list_to_set (port <$> instances))
                (seqZ PORT_RANGE_START (PORT_RANGE_END - PORT_RANGE_START))
                st') as Hscan.
  destruct (scan_ports _ _ _ _ _) as [[q|e] st2]; simpl; [|done].
  destruct Hscan as (_ & _ & _ & _ & Hq & _). intros [= ->].
  apply Hq, elem_of_list_to_set, list_elem_of_fmap.
  exists info. split; [done|]. by apply (Hin instances st').
Qed.

(** X13: once an instance is registered on a port, [find_available_port]
    does not hand that port out again, for any host, as long as the record
    is not reapable: the clock is at most [STALE_TIMEOUT] past the
    registration, or the registering process is still alive. *)
Theorem registered_port_not_reissued (E E' : Env) (h h' i bn bp : string)
    (p : Z) (st : store) :
  scandir_ok E' →
  st !! _instance_file i ≠ Some Directory →
  (time_time E' <= time_time E + 60)%Q ∨ os_kill0 E' (os_getpid E) = true →
  ∃ info st1,
    register_instance E i h' p bn bp st = (Return info, st1) ∧
    port info = p ∧
    (find_available_port E' h st1).1 ≠ Return p.
Proof.
  intros HE Hdir Hlive. rewrite register_instance_eq.
  set (info := mkInstanceInfo i h' p bn bp (os_getpid E) (time_time E)).
  set (st1 := <[_instance_file i := File (Doc (to_dict info))]> st).
  exists info, st1.
  split; [by destruct (st !! _instance_file i) as [[c|]|]|].
  split; [done|].
  assert (Hkeep : negb false && reapable E' info = false).
  { simpl. unfold reapable. destruct Hlive as [Hclock|Halive].
    - by rewrite (is_stale_within E' info).
    - simpl. rewrite Halive. apply andb_false_r. }
  apply (listed_port_not_returned E' h st1 info).
  intros instances st' Hl.
  apply (list_instances_Return E' false st1 st' instances HE) in Hl as [-> _].
  apply (listed_record E' false st1 (_instance_file i) (to_dict info));
    [ done | apply _instance_file_json | apply lookup_insert_eq
    | apply record_of_to_dict | done ].
Qed.

Lemma registered_port_not_reissued_witness :
  ∃ info st1,
    register_instance (machine 1000 42) "blocker" "127.0.0.1" 13337
      "blocker.exe" "" ∅ = (Return info, st1) ∧
    port info = 13337%Z ∧
    (find_available_port (machine 5000 42) "127.0.0.1" st1).1
      ≠ Return 13337%Z.
Proof.
  apply (registered_port_not_reissued (machine 1000 42) (machine 5000 42)).
  - apply machine_scandir_ok.
  - intros H. vm_compute in H. discriminate H.
  - right. reflexivity.
Defined.

(** * One file per instance id *)

(** X14: for ids that are valid file names, registrations under different
    ids never disturb each other, and a second registration under the same
    id replaces the first: afterwards [find_instance_by_id] returns the
    second record and the directory has the same names as after the first
    registration. *)
Theorem register_instance_one_record_per_id (E1 E2 : Env)
    (i j h1 h2 : string) (p1 p2 : Z) (bn1 bn2 bp1 bp2 : string) (st : store) :
  valid_id i = true →
  valid_id j = true →
  st !! _instance_file i ≠ Some Directory →
  ∃ first st1,
    register_instance E1 i h1 p1 bn1 bp1 st = (Return first, st1) ∧
    (i ≠ j →
     find_instance_by_id i (register_instance E2 j h2 p2 bn2 bp2 st1).2
       = (Return (Some first), (register_instance E2 j h2 p2 bn2 bp2 st1).2)) ∧
    ∃ second st2,
      register_instance E2 i h2 p2 bn2 bp2 st1 = (Return second, st2) ∧
      find_instance_by_id i st2 = (Return (Some second), st2) ∧
      dom st2 = dom st1.
Proof.
  intros _ _ Hdir. rewrite register_instance_eq.
  set (first := mkInstanceInfo i h1 p1 bn1 bp1 (os_getpid E1) (time_time E1)).
  set (st1 := <[_instance_file i := File (Doc (to_dict first))]> st).
  exists first, st1.
  split; [by destruct (st !! _instance_file i) as [[c|]|]|].
  assert (Hi : st1 !! _instance_file i = Some (File (Doc (to_dict first))))
    by apply lookup_insert_eq.
  split.
  - intros Hij. rewrite find_instance_by_id_eq.
    rewrite register_instance_eq.
    assert (Hne : _instance_file j ≠ _instance_file i).
    { intros Heq. apply _instance_file_inj in Heq. congruence. }
    destruct (st1 !! _instance_file j) as [[c|]|]; simpl;
      rewrite ?lookup_insert_ne by done; rewrite Hi; simpl;
      by rewrite record_of_to_dict.
  - rewrite register_instance_eq, Hi. eexists _, _. split; [done|]. split.
    + rewrite find_instance_by_id_eq, lookup_insert_eq. simpl.
      by rewrite record_of_to_dict.
    + rewrite dom_insert_L. apply elem_of_dom_2 in Hi.
      apply subseteq_union_1_L. by apply singleton_subseteq_l.
Qed.

Lemma register_instance_one_record_per_id_witness :
  ∃ first st1,
    register_instance (machine 1000 42) "a" "127.0.0.1" 13337 "x.exe" "" ∅
      = (Return first, st1) ∧
    ("a" ≠ "b" →
     find_instance_by_id "a"
       (register_instance (machine 1001 43) "b" "127.0.0.1" 13338 "y.exe" ""
          st1).2
       = (Return (Some first),
          (register_instance (machine 1001 43) "b" "127.0.0.1" 13338 "y.exe" ""
             st1).2)) ∧
    ∃ second st2,
      register_instance (machine 1001 43) "a" "127.0.0.1" 13338 "y.exe" "" st1
        = (Return second, st2) ∧
      find_instance_by_id "a" st2 = (Return (Some second), st2) ∧
      dom st2 = dom st1.
Proof.
  apply (register_instance_one_record_per_id (machine 1000 42) (machine 1001 43)
           "a" "b" "127.0.0.1" "127.0.0.1" 13337 13338 "x.exe" "y.exe" "" "" ∅).
  - reflexivity.
  - reflexivity.
  - intros H. vm_compute in H. discriminate H.
Defined.

(** * The heartbeat loop *)

Lemma last_cons_is_Some {A} (x : A) (l : list A) : is_Some (last (x :: l)).
Proof.
  revert x. induction l as [|y l IH]; intros x; [by eexists|]. apply (IH y).
Qed.

(** X15: the loop of [HeartbeatThread._run], for an id that is a valid file
    name, changes nothing but the file of its own instance, and that only
    when the file holds a JSON object: then it returns with the object
    carrying the timestamp of the last refresh and all its other members as
    they were.  A missing file, a file with text that is not JSON and a
    directory are left as they are, and the loop returns: it neither creates
    nor removes the file.  When reading the file raises an exception that
    [refresh_instance] does not catch (the file is not UTF-8 text, say), or
    the file holds JSON that is not an object, the first refresh raises and
    ends the loop with the directory unchanged. *)
Theorem heartbeat_run_touches_only_timestamp (self : HeartbeatThread.t)
    (turns : list (bool * Env)) (st : store) :
  valid_id (HeartbeatThread.instance_id self) = true →
  match st !! _instance_file (HeartbeatThread.instance_id self),
        last (HeartbeatThread.beats self turns) with
  | Some (File (Doc d)), Some E =>
      HeartbeatThread._run self turns st =
        (Return tt,
         <[_instance_file (HeartbeatThread.instance_id self) :=
             File (Doc (set_timestamp d (time_time E)))]> st)
  | Some (File (Unreadable x)), Some _ =>
      HeartbeatThread._run self turns st =
        (if is_registry_error x then Return tt else Raise x, st)
  | Some (File NotObject), Some _ =>
      HeartbeatThread._run self turns st = (Raise TypeError, st)
  | _, _ => HeartbeatThread._run self turns st = (Return tt, st)
  end.
Proof.
  intros _. revert st.
  induction turns as [|[stop_called E] turns IH]; intros st; simpl.
  - by destruct (st !! _) as [[[?| | |?]|]|].
  - destruct (HeartbeatThread._stop_event self || stop_called); simpl.
    + by destruct (st !! _) as [[[?| | |?]|]|].
    + unfold mbind, py_bind, bind. rewrite refresh_instance_eq.
      set (f := _instance_file (HeartbeatThread.instance_id self)) in *.
      destruct (st !! f) as [[[x| | |d]|]|] eqn:Hf.
      * destruct (last_cons_is_Some E (HeartbeatThread.beats self turns))
          as [E0 ->].
        destruct (is_registry_error x) eqn:Hx; [|done].
        specialize (IH st). rewrite Hf in IH.
        destruct (HeartbeatThread.beats self turns) as [|E1 beats1]; [done|].
        destruct (last_cons_is_Some E1 beats1) as [E2 HE2].
        rewrite HE2, Hx in IH. done.
      * specialize (IH st). rewrite Hf in IH.
        by destruct (HeartbeatThread.beats self turns) as [|? ?].
      * by destruct (last_cons_is_Some E (HeartbeatThread.beats self turns))
          as [E0 ->].
      * specialize (IH (<[f := File (Doc (set_timestamp d (time_time E)))]> st)).
        rewrite lookup_insert_eq in IH.
        destruct (HeartbeatThread.beats self turns) as [|E' beats'] eqn:Hb.
        -- done.
        -- change (last (E :: E' :: beats')) with (last (E' :: beats')).
           destruct (last (E' :: beats')) as [E''|] eqn:Hl.
           ++ by rewrite IH, insert_insert_eq.
           ++ destruct (last_cons_is_Some E' beats') as [? Hsome]. congruence.
      * specialize (IH st). rewrite Hf in IH.
        by destruct (HeartbeatThread.beats self turns) as [|? ?].
      * specialize (IH st). rewrite Hf in IH.
        by destruct (HeartbeatThread.beats self turns) as [|? ?].
Qed.

Lemma heartbeat_run_touches_only_timestamp_witness :
  HeartbeatThread._run (HeartbeatThread.init "a")
    [(false, machine 930 7); (false, machine 960 7); (true, machine 990 7)]
    (sample_store 900 7)
  = (Return tt,
     <[ "a.json" := File (Doc (set_timestamp (sample_dict 900 7) 960)) ]>
       (sample_store 900 7)) ∧
  HeartbeatThread._run (HeartbeatThread.init "a")
    [(false, machine 930 7); (false, machine 960 7)] list_store
  = (Raise TypeError, list_store).
Proof.
  split.
  - apply (heartbeat_run_touches_only_timestamp (HeartbeatThread.init "a")
             [(false, machine 930 7); (false, machine 960 7);
              (true, machine 990 7)] (sample_store 900 7) eq_refl).
  - apply (heartbeat_run_touches_only_timestamp (HeartbeatThread.init "a")
             [(false, machine 930 7); (false, machine 960 7)] list_store
             eq_refl).
Defined.

(** X16: [start] on a started heartbeat launches nothing; [stop] leaves the
    object without a thread and with its stop event set, for good, since
    nothing ever clears the event: a heartbeat that is started again after
    [stop] launches a thread whose loop ends at once, without a single
    refresh. *)
Theorem heartbeat_not_restartable (self : HeartbeatThread.t)
    (turns : list (bool * Env)) (st : store) :
  HeartbeatThread.start (HeartbeatThread.start self).1
    = ((HeartbeatThread.start self).1, false) ∧
  HeartbeatThread.stop (HeartbeatThread.stop self) = HeartbeatThread.stop self ∧
  HeartbeatThread.start (HeartbeatThread.stop self)
    = ({| HeartbeatThread.instance_id := HeartbeatThread.instance_id self;
          HeartbeatThread._stop_event := true;
          HeartbeatThread._thread := true |}, true) ∧
  HeartbeatThread._run (HeartbeatThread.start (HeartbeatThread.stop self)).1
    turns st = (Return tt, st) ∧
  HeartbeatThread.beats (HeartbeatThread.start (HeartbeatThread.stop self)).1
    turns = [].
Proof.
  split; [|split; [|split; [|split]]].
  - by destruct self as [? ? [|]].
  - done.
  - done.
  - by destruct turns as [|[? ?] ?].
  - by destruct turns as [|[? ?] ?].
Qed.

(** * Unloading a package *)

Lemma del_each {M} (l : list string) (m : gmap string M) :
  NoDup l →
  (∀ k, k ∈ l → is_Some (m !! k)) →
  ∃ m',
    foldl (λ acc mod_name,
             match acc with
             | Return modules => del_item mod_name modules
             | Raise e => Raise e
             end) (Return m) l = Return m' ∧
    ∀ k, m' !! k = if bool_decide (k ∈ l) then None else m !! k.
Proof.
  revert m. induction l as [|x l IH]; intros m Hnd Hin.
  - exists m. split; [done|]. intros k.
    by rewrite bool_decide_eq_false_2 by apply not_elem_of_nil.
  - apply NoDup_cons in Hnd as [Hx Hnd]. simpl. unfold del_item at 2.
    destruct (Hin x (list_elem_of_here _ _)) as [v ->].
    destruct (IH (delete x m) Hnd) as (m' & Hrun & Hm').
    { intros k Hk. rewrite lookup_delete_ne by (by intros ->).
      apply Hin. by apply list_elem_of_further. }
    exists m'. split; [done|]. intros k. rewrite Hm'.
    destruct (decide (k = x)) as [->|Hne].
    + rewrite (bool_decide_eq_false_2 (x ∈ l)) by done.
      rewrite (bool_decide_eq_true_2 (x ∈ x :: l)) by apply list_elem_of_here.
      apply lookup_delete_eq.
    + rewrite lookup_delete_ne by done.
      rewrite (bool_decide_ext (k ∈ l) (k ∈ x :: l)); [done|].
      rewrite elem_of_cons. split; [by right | by intros [?|?]].
Qed.

(** X17: [unload_package] never raises [KeyError].  It removes from
    [sys.modules] the module called [package_name] and every module whose
    name starts with [package_name] followed by a dot, and leaves every other
    module, also one whose name merely starts with [package_name], as it
    was. *)
Theorem unload_package_removes_the_package {M} (package_name : string)
    (names : list string) (sys_modules : gmap string M) :
  NoDup names →
  (∀ k, k ∈ names ↔ is_Some (sys_modules !! k)) →
  ∃ modules',
    unload_package package_name names sys_modules = Return modules' ∧
    ∀ k, modules' !! k =
         if belongs_to package_name k then None else sys_modules !! k.
Proof.
  intros Hnd Hnames. unfold unload_package.
  destruct (del_each
              (filter (λ mod_name, Is_true (belongs_to package_name mod_name))
                 names) sys_modules) as (m' & Hrun & Hm').
  - by apply NoDup_filter.
  - intros k Hk. apply list_elem_of_filter in Hk as [_ Hk]. by apply Hnames.
  - exists m'. split; [done|]. intros k. rewrite Hm'.
    destruct (belongs_to package_name k) eqn:Hb.
    + destruct (sys_modules !! k) as [v|] eqn:Hk; [|by case_bool_decide].
      rewrite bool_decide_eq_true_2; [done|].
      apply list_elem_of_filter. split; [by rewrite Hb|].
      apply Hnames. by eexists.
    + rewrite bool_decide_eq_false_2; [done|].
      intros Hk. apply list_elem_of_filter in Hk as [Hk _]. by rewrite Hb in Hk.
Qed.

Lemma unload_package_removes_the_package_witness :
  ∃ modules',
    unload_package "ida_mcp" (map_to_list sample_modules).*1 sample_modules
      = Return modules' ∧
    ∀ k, modules' !! k =
         if belongs_to "ida_mcp" k then None else sample_modules !! k.
Proof.
  apply (unload_package_removes_the_package "ida_mcp"
           (map_to_list sample_modules).*1 sample_modules).
  - apply NoDup_fst_map_to_list.
  - intros k. rewrite list_elem_of_fmap. split.
    + intros ([k' v] & -> & Hkv). apply elem_of_map_to_list in Hkv. by exists v.
    + intros [v Hv]. exists (k, v). split; [done|]. by apply elem_of_map_to_list.
Defined.

(** What is left of the sample modules once [ida_mcp] is unloaded. *)
Example unload_package_sample :
  unload_package "ida_mcp" (map_to_list sample_modules).*1 sample_modules
  = Return {[ "ida_mcp_extra" := 4%nat; "idaapi" := 5%nat ]}.
Proof. by vm_compute. Qed.

(** * The two modes of listing *)





(** * The plugin's registration *)

Lemma or_else_nonempty (value : option string) (fallback : string) :
  fallback ≠ "" → or_else value fallback ≠ "".
Proof.
  intros Hf. unfold or_else. destruct value as [s|]; [|done].
  destruct (String.eqb s "") eqn:Hs; [done|]. by apply String.eqb_neq.
Qed.

(** X19: when the registry module can be imported and the path of the file
    is not a directory, [MCP._register_instance] records the plugin under its
    instance id with host 127.0.0.1, the plugin's port, the id of the plugin
    process and the current time.  The recorded [binary_name] is never empty
    (it is "unknown" when IDA gives none), and the plugin ends up with a
    started heartbeat for its id.  When the module cannot be imported,
    nothing is recorded and no heartbeat is created. *)
Theorem plugin_register_instance (E : Env) (I : Ida) (self : MCP.t)
    (st : store) :
  st !! _instance_file (MCP.instance_id self) ≠ Some Directory →
  if registry_importable I then
    ∃ self' st' info,
      MCP._register_instance E I self st = (Return self', st') ∧
      find_instance_by_id (MCP.instance_id self) st' = (Return (Some info), st') ∧
      info = {| instance_id := MCP.instance_id self; host := "127.0.0.1";
                port := MCP.port self; binary_name := _get_binary_name I;
                binary_path := _get_binary_path I; pid := os_getpid E;
                timestamp := time_time E |} ∧
      binary_name info ≠ "" ∧
      MCP.heartbeat self' =
        Some {| HeartbeatThread.instance_id := MCP.instance_id self;
                HeartbeatThread._stop_event := false;
                HeartbeatThread._thread := true |} ∧
      MCP.mcp self' = MCP.mcp self ∧ MCP.port self' = MCP.port self ∧
      MCP.instance_id self' = MCP.instance_id self
  else MCP._register_instance E I self st = (Return self, st).
Proof.
  intros Hdir. unfold MCP._register_instance.
  destruct (registry_importable I); simpl; [|done].
  unfold mbind, py_bind, bind. rewrite register_instance_eq.
  destruct (st !! _instance_file (MCP.instance_id self)) as [[c|]|] eqn:Hf;
    try done;
    (eexists _, _, _; split; [done|]; split;
     [ rewrite find_instance_by_id_eq, lookup_insert_eq; simpl;
       by rewrite record_of_to_dict
     | split; [done|]; split; [|done]; simpl; unfold _get_binary_name;
       destruct (get_root_filename I); [by apply or_else_nonempty | done] ]).
Qed.

Lemma plugin_register_instance_witness :
  ∃ self' st' info,
    MCP._register_instance (machine 1000 42) ida_without_binary sample_plugin ∅
      = (Return self', st') ∧
    find_instance_by_id "a" st' = (Return (Some info), st') ∧
    info = {| instance_id := "a"; host := "127.0.0.1"; port := 13337%Z;
              binary_name := "unknown"; binary_path := ""; pid := 42%Z;
              timestamp := 1000 |} ∧
    binary_name info ≠ "" ∧
    MCP.heartbeat self' =
      Some {| HeartbeatThread.instance_id := "a";
              HeartbeatThread._stop_event := false;
              HeartbeatThread._thread := true |} ∧
    MCP.mcp self' = true ∧ MCP.port self' = 13337%Z ∧
    MCP.instance_id self' = "a".
Proof.
  apply (plugin_register_instance (machine 1000 42) ida_without_binary
           sample_plugin ∅).
  intros H. vm_compute in H. discriminate H.
Defined.

(** X20: [MCP._register_instance] followed by [MCP._unregister_instance]
    (the registry module being importable both times) leaves the plugin
    without a heartbeat and the registry without a file for the instance,
    every other file being as before the registration; a refresh by the
    abandoned heartbeat thread that arrives afterwards changes nothing. *)
Theorem plugin_register_then_unregister (E E' : Env) (I I' : Ida)
    (self : MCP.t) (st : store) :
  registry_importable I = true →
  registry_importable I' = true →
  st !! _instance_file (MCP.instance_id self) ≠ Some Directory →
  ∃ self1 st1 self2 st2,
    MCP._register_instance E I self st = (Return self1, st1) ∧
    MCP._unregister_instance I' self1 st1 = (Return self2, st2) ∧
    MCP.heartbeat self2 = None ∧
    st2 !! _instance_file (MCP.instance_id self) = None ∧
    (∀ n, n ≠ _instance_file (MCP.instance_id self) → st2 !! n = st !! n) ∧
    refresh_instance E' (MCP.instance_id self) st2 = (Return false, st2).
Proof.
  intros HI HI' Hdir. unfold MCP._register_instance, MCP._unregister_instance.
  rewrite HI, HI'. simpl. unfold mbind, py_bind, bind.
  rewrite register_instance_eq.
  destruct (st !! _instance_file (MCP.instance_id self)) as [[c|]|] eqn:Hf;
    try done;
    (eexists _, _, _, _; split; [done|];
     cbn [MCP.heartbeat MCP.instance_id MCP.mcp MCP.port];
     rewrite unregister_instance_eq, lookup_insert_eq;
     split; [done|]; split; [done|];
     split; [apply lookup_delete_eq|]; split;
     [ intros n Hn; by rewrite lookup_delete_ne, lookup_insert_ne
     | rewrite refresh_instance_eq; by rewrite lookup_delete_eq ]).
Qed.

Lemma plugin_register_then_unregister_witness :
  ∃ self1 st1 self2 st2,
    MCP._register_instance (machine 1000 42) ida_with_binary sample_plugin ∅
      = (Return self1, st1) ∧
    MCP._unregister_instance ida_with_binary self1 st1 = (Return self2, st2) ∧
    MCP.heartbeat self2 = None ∧
    st2 !! _instance_file "a" = None ∧
    (∀ n, n ≠ _instance_file "a" → st2 !! n = (∅ : store) !! n) ∧
    refresh_instance (machine 1030 42) "a" st2 = (Return false, st2).
Proof.
  apply (plugin_register_then_unregister (machine 1000 42) (machine 1030 42)
           ida_with_binary ida_with_binary sample_plugin ∅).
  - reflexivity.
  - reflexivity.
  - intros H. vm_compute in H. discriminate H.
Defined.

(** * The reaping rule *)




(** * What a heartbeat changes *)

(** X22: for an id that is a valid file name, [refresh_instance] returns
    [False], without raising, when the id has no file, when the file holds
    text that is not JSON and when the path is a directory, and it changes
    nothing then.  When the file holds a JSON
    object it returns [True] and rewrites the file with the same members
    except [timestamp], which becomes the current time; no other file
    changes.  When reading the file raises an exception other than those of
    the [except] clause (the file is not UTF-8 text, say), or the file holds
    JSON that is not an object, it raises and changes nothing. *)
Theorem refresh_instance_frame (E : Env) (i : string) (st : store) :
  valid_id i = true →
  match st !! _instance_file i with
  | None | Some Directory | Some (File Malformed) =>
      refresh_instance E i st = (Return false, st)
  | Some (File (Doc d)) =>
      ∃ d' st',
        refresh_instance E i st = (Return true, st') ∧
        st' !! _instance_file i = Some (File (Doc d')) ∧
        (∀ n, n ≠ _instance_file i → st' !! n = st !! n) ∧
        d_timestamp d' = Some (time_time E) ∧
        d_instance_id d' = d_instance_id d ∧
        d_host d' = d_host d ∧
        d_port d' = d_port d ∧
        d_binary_name d' = d_binary_name d ∧
        d_binary_path d' = d_binary_path d ∧
        d_pid d' = d_pid d
  | Some (File (Unreadable x)) =>
      refresh_instance E i st =
        (if is_registry_error x then Return false else Raise x, st)
  | Some (File NotObject) =>
      refresh_instance E i st = (Raise TypeError, st)
  end.
Proof.
  intros _. rewrite refresh_instance_eq.
  destruct (st !! _instance_file i) as [[[x| | |d]|]|] eqn:Hf; try done.
  eexists _, _. split; [done|]. split; [by rewrite lookup_insert_eq|].
  split; [|done]. intros n Hn. by rewrite lookup_insert_ne.
Qed.

Lemma refresh_instance_frame_witness :
  refresh_instance (machine 1000 42) "nonexistent" (sample_store 900 7)
    = (Return false, sample_store 900 7) ∧
  ∃ d' st',
    refresh_instance (machine 1000 42) "a" (sample_store 900 7)
      = (Return true, st') ∧
    st' !! _instance_file "a" = Some (File (Doc d')) ∧
    d_timestamp d' = Some 1000%Q ∧
    d_pid d' = Some 7%Z.
Proof.
  split.
  - apply (refresh_instance_frame (machine 1000 42) "nonexistent"
             (sample_store 900 7) eq_refl).
  - destruct (refresh_instance_frame (machine 1000 42) "a"
                (sample_store 900 7) eq_refl)
      as (d' & st' & Hrun & Hfile & _ & Ht & _ & _ & _ & _ & _ & Hpid).
    exists d', st'. split; [exact Hrun|]. split; [exact Hfile|].
    split; [exact Ht | exact Hpid].
Defined.

(** * First-fit port allocation *)



(** * Matching by binary name *)



(** * What the sweep counts *)



(** * One foreign file disables the registry *)

(** What a sweep lets through is nothing that its [except] clauses name. *)
Lemma escapes_kind (E : Env) (inc : bool) (e : entry) (y : exn) :
  escapes E inc e = Some y → is_registry_error y = false.
Proof.
  unfold escapes. destruct e as [[x| | |d]|]; try done.
  - destruct (is_registry_error x) eqn:Hx; [done|]. by intros [= <-].
  - by intros [= <-].
  - destruct (record_of (File (Doc d))) as [info|]; [|done].
    destruct (negb inc && is_stale E info && negb (fits_c_int (pid info)));
      [|done].
    by intros [= <-].
Qed.

(** X26: one [*.json] file on which [json.load] raises an exception other
    than [JSONDecodeError] and [OSError] (a file that is not UTF-8 text,
    say), or whose JSON text is not an object, makes every function that
    scans the directory raise, whatever else the directory holds and in
    whatever order it is scanned: [list_instances] (with either value of
    [include_stale]), [cleanup_stale_instances], [find_available_port] and
    [find_instance_by_binary] all end with an exception that is none of
    [JSONDecodeError], [KeyError] and [OSError], and the file is still there
    afterwards. *)
Theorem foreign_file_breaks_the_sweeps (E : Env) (inc : bool) (h q : string)
    (st : store) (n : string) (c : content) :
  scandir_ok E →
  ends_with ".json" n = true →
  st !! n = Some (File c) →
  c = NotObject ∨ (∃ x, c = Unreadable x ∧ is_registry_error x = false) →
  (∃ y st', list_instances E inc st = (Raise y, st') ∧
            st' !! n = Some (File c) ∧
            is_registry_error y = false) ∧
  (∃ y st', cleanup_stale_instances E st = (Raise y, st') ∧
            st' !! n = Some (File c) ∧
            is_registry_error y = false) ∧
  (∃ y st', find_available_port E h st = (Raise y, st') ∧
            st' !! n = Some (File c) ∧
            is_registry_error y = false) ∧
  (∃ y st', find_instance_by_binary E q st = (Raise y, st') ∧
            st' !! n = Some (File c) ∧
            is_registry_error y = false).
Proof.
  intros HE Hn Hc Hforeign.
  assert (Hesc : ∀ inc', ∃ x, escapes E inc' (File c) = Some x).
  { intros inc'. destruct Hforeign as [-> | (x & -> & Hx)].
    - by eexists.
    - exists x. simpl. by rewrite Hx. }
  assert (Hkept : ∀ inc', unlinked E inc' (File c) = false).
  { intros inc'. by destruct Hforeign as [-> | (x & -> & Hx)]. }
  assert (Hlist : ∀ inc', ∃ y st',
            list_instances E inc' st = (Raise y, st') ∧
            st' !! n = Some (File c) ∧
            is_registry_error y = false).
  { intros inc'. destruct (Hesc inc') as [x Hx].
    destruct (list_instances_raises E inc' st n (File c) x HE Hn Hc Hx)
      as (y & st' & Hrun & n' & e' & _ & Hy).
    exists y, st'. split; [done|]. split; [|by apply (escapes_kind E inc' e')].
    destruct (list_instances_frame E inc' st n)
      as [Heq|(_ & _ & e & He & Hu)].
    - rewrite Hrun in Heq. simpl in Heq. by rewrite Heq.
    - rewrite Hc in He. injection He as <-. by rewrite Hkept in Hu. }
  split; [apply Hlist|]. split; [|split].
  - destruct (Hesc false) as [x Hx].
    destruct (cleanup_stale_instances_raises E st n (File c) x HE Hn Hc Hx)
      as (y & st' & Hrun & n' & e' & _ & Hy).
    exists y, st'. split; [done|]. split; [|by apply (escapes_kind E false e')].
    destruct (cleanup_stale_instances_frame E st n)
      as [Heq|(_ & _ & e & He & Hu)].
    + rewrite Hrun in Heq. simpl in Heq. by rewrite Heq.
    + rewrite Hc in He. injection He as <-. by rewrite Hkept in Hu.
  - destruct (Hlist false) as (y & st' & Hrun & Hfile & Hy).
    exists y, st'. unfold find_available_port, mbind, py_bind, bind.
    by rewrite Hrun.
  - destruct (Hlist false) as (y & st' & Hrun & Hfile & Hy).
    exists y, st'. unfold find_instance_by_binary, mbind, py_bind, bind.
    by rewrite Hrun.
Qed.

Lemma foreign_file_breaks_the_sweeps_witness :
  (∃ y st', list_instances (machine 1000 42) true mixed_store = (Raise y, st') ∧
            st' !! "b.json" = Some (File NotObject) ∧
            is_registry_error y = false) ∧
  (∃ y st', find_available_port (machine 1000 42) "127.0.0.1" mixed_store
              = (Raise y, st') ∧
            st' !! "b.json" = Some (File NotObject) ∧
            is_registry_error y = false).
Proof.
  destruct (foreign_file_breaks_the_sweeps (machine 1000 42) true "127.0.0.1"
              "x.exe" mixed_store "b.json" NotObject
              (machine_scandir_ok 1000 42) eq_refl eq_refl
              (or_introl eq_refl))
    as (Hlist & _ & Hport & _).
  split; [exact Hlist | exact Hport].
Defined.
